(** * Event-sourced shopping cart: aggregate, repository and weak ETags

    A shallow embedding of

    - the class-based [ShoppingCart] aggregate with its [EventStoreRepository],
      [ApplicationService] and [ShoppingCartService] (module [Aggregate]),
      and its fold once more over any numbers, the floating-point numbers of
      the language among them (module [Numeric]);
    - the weak-ETag helpers of [core/http.ts] (module [ETag]), together with
      the backtracking matcher that gives its regular expression literal
      a meaning (module [RegExp]);
    - the functional [getShoppingCart] reducer of the CRUD-to-event-sourcing
      sample (module [Cashier]).

    Conventions.  A JavaScript exception [throw new Error(msg)] is the value
    [Throw msg] of [result]; a field that may hold [undefined] is an [option];
    in [Aggregate] quantities and prices are integers, computed with exactly,
    as the numbers of the language are while they stay safe integers; a
    revision is a bigint.
    Strings are sequences of 8-bit characters, which is what an HTTP header
    value is once Node has decoded it. *)

From Stdlib Require Import ZArith NArith Ascii String DecimalString DecimalN.
From Stdlib Require Import Floats.
From stdpp Require Import base option list strings gmap.

Local Open Scope Z_scope.

(* ===================================================================== *)
(** ** Exceptions *)
(* ===================================================================== *)

(** The outcome of a call that either returns or throws [new Error(message)]. *)
Inductive result (A : Type) : Type :=
| Ok (value : A)
| Throw (message : string).

Arguments Ok {A} value.
Arguments Throw {A} message.

#[global] Instance result_ret : MRet result := @Ok.

#[global] Instance result_bind : MBind result := λ A B f r,
  match r with
  | Ok a => f a
  | Throw message => Throw message
  end.

#[global] Instance result_fmap : FMap result := λ A B f r,
  match r with
  | Ok a => Ok (f a)
  | Throw message => Throw message
  end.

(** An array reduced with a callback that may throw: [Array.prototype.reduce]
    with an initial value, left to right, stopping at the first exception. *)
Fixpoint reduce {A B : Type} (callback : B → A → result B) (array : list A)
    (initialValue : B) : result B :=
  match array with
  | [] => Ok initialValue
  | x :: rest => acc ← callback initialValue x; reduce callback rest acc
  end.

(** The double quote character, written by its code. *)
Definition dquote : ascii := ascii_of_nat 34.

(** ["<s>"]: the string [s] between double quotes. *)
Definition quoted (s : string) : string := String dquote (s +:+ String dquote "").

(* ===================================================================== *)
(** ** Regular expressions *)
(* ===================================================================== *)

Module RegExp.

(** What a single pattern character can stand for. *)
Inductive CharClass : Type :=
| Literal (c : ascii)   (* the character itself *)
| Digit                 (* \d *)
| AnyChar.              (* .  : anything but a line terminator *)

Inductive Node : Type :=
| One (cls : CharClass)
| OneOrMore (cls : CharClass)     (* cls+ , greedy *)
| ZeroOrMore (cls : CharClass)    (* cls* , greedy *)
| GroupOpen                       (* ( *)
| GroupClose.                     (* ) *)

Definition Pattern : Type := list Node.

Definition isDigit (c : ascii) : bool :=
  (48 <=? nat_of_ascii c)%nat && (nat_of_ascii c <=? 57)%nat.

Definition isLineTerminator (c : ascii) : bool :=
  (nat_of_ascii c =? 10)%nat || (nat_of_ascii c =? 13)%nat.

Definition classMatches (cls : CharClass) (c : ascii) : bool :=
  match cls with
  | Literal l => Ascii.eqb l c
  | Digit => isDigit c
  | AnyChar => negb (isLineTerminator c)
  end.

(** Where capture group 1 starts and ends, as offsets into the input. *)
Record Captures : Type := { groupStart : nat; groupEnd : nat }.

(** A continuation receives what is left of the input, the offset reached
    and the captures so far; it answers with the end of the whole match. *)
Definition Cont : Type := string → nat → Captures → option (nat * Captures).

(** Greedy repetition: take one more character if it is in the class and the
    rest of the pattern then succeeds; otherwise stop here (backtracking). *)
Fixpoint greedy (cls : CharClass) (k : Cont) (s : string) (pos : nat)
    (caps : Captures) : option (nat * Captures) :=
  match s with
  | String c s' =>
      if classMatches cls c then
        match greedy cls k s' (S pos) caps with
        | Some r => Some r
        | None => k s pos caps
        end
      else k s pos caps
  | EmptyString => k s pos caps
  end.

Fixpoint matchPattern (p : Pattern) (k : Cont) : Cont :=
  match p with
  | [] => k
  | One cls :: p' => λ s pos caps,
      match s with
      | String c s' =>
          if classMatches cls c then matchPattern p' k s' (S pos) caps else None
      | EmptyString => None
      end
  | OneOrMore cls :: p' => λ s pos caps,
      match s with
      | String c s' =>
          if classMatches cls c
          then greedy cls (matchPattern p' k) s' (S pos) caps
          else None
      | EmptyString => None
      end
  | ZeroOrMore cls :: p' => greedy cls (matchPattern p' k)
  | GroupOpen :: p' => λ s pos caps,
      matchPattern p' k s pos {| groupStart := pos; groupEnd := groupEnd caps |}
  | GroupClose :: p' => λ s pos caps,
      matchPattern p' k s pos {| groupStart := groupStart caps; groupEnd := pos |}
  end.

Definition accept : Cont := λ _ pos caps, Some (pos, caps).

(** A match of the whole pattern starting exactly at offset [pos]. *)
Definition matchHere (p : Pattern) (s : string) (pos : nat) : option (nat * Captures) :=
  matchPattern p accept s pos {| groupStart := 0; groupEnd := 0 |}.

(** The leftmost offset at which the pattern matches. *)
Fixpoint search (p : Pattern) (s : string) (pos : nat) : option (nat * nat * Captures) :=
  match matchHere p s pos with
  | Some (e, caps) => Some (pos, e, caps)
  | None =>
      match s with
      | String _ s' => search p s' (S pos)
      | EmptyString => None
      end
  end.

(** The array [exec] returns for a pattern with one group: the matched text
    at index 0 and the group at index 1. *)
Record ExecArray : Type := { at0 : string; at1 : string }.

Module Array.
(** [weak.length]: the matched text and one group. *)
Definition length (_ : ExecArray) : nat := 2.
End Array.

(** [RegExp.prototype.exec] for a pattern without flags: [null] is [None]. *)
Definition exec (p : Pattern) (input : string) : option ExecArray :=
  match search p input 0 with
  | Some (b, e, caps) =>
      Some {| at0 := substring b (e - b) input;
              at1 := substring (groupStart caps) (groupEnd caps - groupStart caps) input |}
  | None => None
  end.

(** [RegExp.prototype.test]. *)
Definition test (p : Pattern) (input : string) : bool :=
  match exec p input with Some _ => true | None => false end.

End RegExp.

(* ===================================================================== *)
(** ** Weak ETags (core/http.ts) *)
(* ===================================================================== *)

Module ETag.
Import RegExp.

(** The literal reads: W, slash, double quote, then group 1 made of one or
    more digits followed by any number of arbitrary characters, then a
    double quote. *)
Definition WeakETagRegex : Pattern :=
  [ One (Literal "W"); One (Literal "/"); One (Literal dquote);
    GroupOpen; OneOrMore Digit; ZeroOrMore AnyChar; GroupClose;
    One (Literal dquote) ].

Module ETagErrors.
Definition WRONG_WEAK_ETAG_FORMAT : string := "WRONG_WEAK_ETAG_FORMAT".
Definition MISSING_HEADER : string := "MISSING_HEADER".
End ETagErrors.

Definition isWeakETag (etag : string) : bool := test WeakETagRegex etag.

Definition getWeakETagValue (etag : string) : result string :=
  match exec WeakETagRegex etag with
  | None => Throw ETagErrors.WRONG_WEAK_ETAG_FORMAT
  | Some weak =>
      if (Array.length weak =? 0)%nat
      then Throw ETagErrors.WRONG_WEAK_ETAG_FORMAT
      else Ok (at1 weak)
  end.

(** What the template literal interpolates, for two of the three types the
    parameter admits: a bigint, which is what a stream revision is (taken to
    be non-negative), and a string.  A bigint is always printed with its
    exact decimal digits.  An argument of type [number] is printed by the
    number-to-string conversion of the language, which gives other digits
    for large values; it has no constructor here, and nothing below speaks
    of it. *)
Inductive Value : Type :=
| BigInt (r : N)
| Text (s : string).

(** The decimal digits of [r], as the bigint [r] is printed. *)
Definition decimal (r : N) : string := NilZero.string_of_uint (N.to_uint r).

Definition toString (value : Value) : string :=
  match value with
  | BigInt r => decimal r
  | Text s => s
  end.

Definition toWeakETag (value : Value) : string :=
  "W/" +:+ quoted (toString value).

End ETag.


(* ===================================================================== *)
(** ** The event store and the programs that call it *)
(* ===================================================================== *)

Module Store.
Section Programs.
Context {StreamEvent : Type}.

(** A computation that returns, throws, or calls one of the two methods of
    the [EventStore] it was given and carries on with the answer. *)
Inductive Prog (A : Type) : Type :=
| Return (a : A)
| Raise (message : string)
| ReadStream (streamId : string) (k : list StreamEvent → Prog A)
| AppendToStream (streamId : string) (events : list StreamEvent) (k : unit → Prog A).

Arguments Return {A} a.
Arguments Raise {A} message.
Arguments ReadStream {A} streamId k.
Arguments AppendToStream {A} streamId events k.

Fixpoint bind {A B : Type} (p : Prog A) (f : A → Prog B) : Prog B :=
  match p with
  | Return a => f a
  | Raise message => Raise message
  | ReadStream streamId k => ReadStream streamId (λ events, bind (k events) f)
  | AppendToStream streamId events k =>
      AppendToStream streamId events (λ u, bind (k u) f)
  end.

(** A synchronous call that may throw, made in the middle of a program. *)
Definition lift {A : Type} (r : result A) : Prog A :=
  match r with
  | Ok a => Return a
  | Throw message => Raise message
  end.

(** The [EventStore] interface, over the store's own state [S]: reading
    returns the events of a stream or throws, appending returns the store
    after the append or throws. *)
Record EventStore (S : Type) : Type := {
  readStream : S → string → result (list StreamEvent);
  appendToStream : S → string → list StreamEvent → result S;
}.

Arguments readStream {S} _ _ _.
Arguments appendToStream {S} _ _ _ _.

(** One call received by the event store. *)
Inductive Call : Type :=
| ReadStreamCall (streamId : string)
| AppendToStreamCall (streamId : string) (events : list StreamEvent).

(** Running a program against an event store: the calls the store received,
    in order, the outcome, and the store afterwards. *)
Fixpoint run {S A : Type} (eventStore : EventStore S) (p : Prog A) (s : S)
    : list Call * result A * S :=
  match p with
  | Return a => ([], Ok a, s)
  | Raise message => ([], Throw message, s)
  | ReadStream streamId k =>
      match readStream eventStore s streamId with
      | Ok events =>
          let '(calls, r, s') := run eventStore (k events) s in
          (ReadStreamCall streamId :: calls, r, s')
      | Throw message => ([ReadStreamCall streamId], Throw message, s)
      end
  | AppendToStream streamId events k =>
      match appendToStream eventStore s streamId events with
      | Ok s' =>
          let '(calls, r, s'') := run eventStore (k tt) s' in
          (AppendToStreamCall streamId events :: calls, r, s'')
      | Throw message => ([AppendToStreamCall streamId events], Throw message, s)
      end
  end.

(** One value of the interface, used to run the programs on concrete streams
    (the statements that follow hold for every event store): a store held in
    memory, a map from stream names to their events, where a stream never
    written to reads as the empty sequence. *)
Definition inMemoryEventStore : EventStore (gmap string (list StreamEvent)) := {|
  readStream streams streamId := Ok (default [] (streams !! streamId));
  appendToStream streams streamId events :=
    Ok (<[streamId := default [] (streams !! streamId) ++ events]> streams);
|}.

(* --------------------------------------------------------------------- *)
(** *** Repository and application service *)

Context {Entity : Type}.

Record Repository : Type := {
  find : string → Prog Entity;
  store : string → list StreamEvent → Prog unit;
}.

Definition EventStoreRepository
    (getInitialState : unit → Entity)
    (evolve : Entity → StreamEvent → result Entity) : Repository := {|
  find id :=
    ReadStream id (λ events, lift (reduce evolve events (getInitialState tt)));
  store id events :=
    if (length events =? 0)%nat then Return tt
    else AppendToStream id events (λ _, Return tt);
|}.

(** What a handler may hand back: one event or an array of events. *)
Inductive Handled : Type :=
| Single (event : StreamEvent)
| Many (events : list StreamEvent).

(** [Array.isArray(result) ? result : [result]] *)
Definition toArray (handled : Handled) : list StreamEvent :=
  match handled with
  | Single event => [event]
  | Many events => events
  end.

(** [ApplicationService.on] *)
Definition on (repository : Repository) (id : string)
    (handle : Entity → result Handled) : Prog unit :=
  bind (find repository id) (λ aggregate,
  bind (lift (handle aggregate)) (λ handled,
  store repository id (toArray handled))).

End Programs.

Arguments Prog : clear implicits.
Arguments Return {StreamEvent A} a.
Arguments Raise {StreamEvent A} message.
Arguments ReadStream {StreamEvent A} streamId k.
Arguments AppendToStream {StreamEvent A} streamId events k.
Arguments EventStore : clear implicits.
Arguments readStream {StreamEvent S} _ _ _.
Arguments appendToStream {StreamEvent S} _ _ _ _.
Arguments Call : clear implicits.
Arguments Repository : clear implicits.
Arguments Handled : clear implicits.

End Store.

(* ===================================================================== *)
(** ** The shopping cart aggregate *)
(* ===================================================================== *)

Module Aggregate.
Import Store.

(** A [Date], as milliseconds since the epoch. *)
Definition Date : Type := Z.

Inductive ShoppingCartStatus : Type := Pending | Confirmed | Canceled.

#[global] Instance ShoppingCartStatus_eq_dec : EqDecision ShoppingCartStatus.
Proof. solve_decision. Defined.

(** [quantity] and [unitPrice] are numbers of the language.  They are read
    here as integers and computed with exactly, which is what the source
    does while every number involved is a safe integer; the module [Numeric]
    below has the fold over the numbers themselves. *)
Record PricedProductItem : Type := {
  productId : string;
  quantity : Z;
  unitPrice : Z;
}.

(** The events of a cart stream.  The first five are the members of the
    [ShoppingCartEvent] union; [OtherEvent] is an event read from a stream
    whose [type] is something else, which the union rules out statically and
    the [default] branch of [evolve] handles at run time.  The cart id of the
    events built by the cart's own methods is a copy of its [_id] field. *)
Inductive ShoppingCartEvent : Type :=
| ShoppingCartOpened (shoppingCartId clientId : string) (openedAt : Date)
| ProductItemAddedToShoppingCart (shoppingCartId : option string)
    (productItem : PricedProductItem)
| ProductItemRemovedFromShoppingCart (shoppingCartId : option string)
    (productItem : PricedProductItem)
| ShoppingCartConfirmed (shoppingCartId : option string) (confirmedAt : Date)
| ShoppingCartCanceled (shoppingCartId : option string) (canceledAt : Date)
| OtherEvent (type : string).

(** The [type] tag of an event. *)
Definition type (event : ShoppingCartEvent) : string :=
  match event with
  | ShoppingCartOpened _ _ _ => "ShoppingCartOpened"
  | ProductItemAddedToShoppingCart _ _ => "ProductItemAddedToShoppingCart"
  | ProductItemRemovedFromShoppingCart _ _ => "ProductItemRemovedFromShoppingCart"
  | ShoppingCartConfirmed _ _ => "ShoppingCartConfirmed"
  | ShoppingCartCanceled _ _ => "ShoppingCartCanceled"
  | OtherEvent type => type
  end.

(** The tags [evolve] has a [case] for. *)
Definition knownEventTypes : list string :=
  [ "ShoppingCartOpened"; "ProductItemAddedToShoppingCart";
    "ProductItemRemovedFromShoppingCart"; "ShoppingCartConfirmed";
    "ShoppingCartCanceled" ].

Module ShoppingCartErrors.
Definition CART_IS_ALREADY_CLOSED : string := "CART_IS_ALREADY_CLOSED".
Definition PRODUCT_ITEM_NOT_FOUND : string := "PRODUCT_ITEM_NOT_FOUND".
Definition CART_IS_EMPTY : string := "CART_IS_EMPTY".
Definition UNKNOWN_EVENT_TYPE : string := "UNKNOWN_EVENT_TYPE".
Definition UNKNOWN_COMMAND_TYPE : string := "UNKNOWN_COMMAND_TYPE".
End ShoppingCartErrors.

(** The private fields of the class.  Every line of [_productItems] is an
    object of its own ([evolve] pushes a copy of the event's item), so
    updating a line in place is the same as replacing it at its index. *)
Record ShoppingCart : Type := {
  _id : option string;
  _clientId : option string;
  _status : option ShoppingCartStatus;
  _openedAt : option Date;
  _productItems : list PricedProductItem;
  _confirmedAt : option Date;
  _canceledAt : option Date;
}.

(** [ShoppingCart.default]: every argument is [undefined], and the
    constructor's default parameter turns the undefined item list into []. *)
Definition default (_ : unit) : ShoppingCart := {|
  _id := None;
  _clientId := None;
  _status := None;
  _openedAt := None;
  _productItems := [];
  _confirmedAt := None;
  _canceledAt := None;
|}.

(** The test both [find] callbacks apply to a line. *)
Definition sameLine (productId' : string) (unitPrice' : Z)
    (pi : PricedProductItem) : Prop :=
  productId pi = productId' ∧ unitPrice pi = unitPrice'.

#[global] Instance sameLine_dec productId' unitPrice' pi :
  Decision (sameLine productId' unitPrice' pi).
Proof. unfold sameLine. apply _. Defined.

Definition withQuantity (pi : PricedProductItem) (q : Z) : PricedProductItem :=
  {| productId := productId pi; quantity := q; unitPrice := unitPrice pi |}.

Definition withProductItems (state : ShoppingCart)
    (items : list PricedProductItem) : ShoppingCart := {|
  _id := _id state;
  _clientId := _clientId state;
  _status := _status state;
  _openedAt := _openedAt state;
  _productItems := items;
  _confirmedAt := _confirmedAt state;
  _canceledAt := _canceledAt state;
|}.

Definition assertIsPending (this : ShoppingCart) : result unit :=
  if decide (_status this ≠ Some Pending)
  then Throw ShoppingCartErrors.CART_IS_ALREADY_CLOSED
  else Ok tt.

(** The quantity [assertProductItemExists] compares with:
    [find(...)?.quantity ?? 0]. *)
Definition currentQuantity (this : ShoppingCart) (productItem : PricedProductItem) : Z :=
  match list_find (sameLine (productId productItem) (unitPrice productItem))
          (_productItems this) with
  | Some (_, p) => quantity p
  | None => 0
  end.

Definition assertProductItemExists (this : ShoppingCart)
    (productItem : PricedProductItem) : result unit :=
  if currentQuantity this productItem <? quantity productItem
  then Throw ShoppingCartErrors.PRODUCT_ITEM_NOT_FOUND
  else Ok tt.

Definition assertIsNotEmpty (this : ShoppingCart) : result unit :=
  if (length (_productItems this) =? 0)%nat
  then Throw ShoppingCartErrors.CART_IS_EMPTY
  else Ok tt.

Definition open (this : ShoppingCart) (shoppingCartId clientId : string)
    (now : Date) : ShoppingCartEvent :=
  ShoppingCartOpened shoppingCartId clientId now.

Definition addProductItem (this : ShoppingCart)
    (productItem : PricedProductItem) : result ShoppingCartEvent :=
  _ ← assertIsPending this;
  Ok (ProductItemAddedToShoppingCart (_id this) productItem).

Definition removeProductItem (this : ShoppingCart)
    (productItem : PricedProductItem) : result ShoppingCartEvent :=
  _ ← assertIsPending this;
  _ ← assertProductItemExists this productItem;
  Ok (ProductItemRemovedFromShoppingCart (_id this) productItem).

Definition confirm (this : ShoppingCart) (now : Date) : result ShoppingCartEvent :=
  _ ← assertIsPending this;
  _ ← assertIsNotEmpty this;
  Ok (ShoppingCartConfirmed (_id this) now).

Definition cancel (this : ShoppingCart) (now : Date) : result ShoppingCartEvent :=
  _ ← assertIsPending this;
  Ok (ShoppingCartCanceled (_id this) now).

(** [ShoppingCart.evolve].  The source updates [state] in place and returns
    it; [find] always starts from a fresh [default()], so handing back the
    updated value is the same thing. *)
Definition evolve (state : ShoppingCart) (event : ShoppingCartEvent)
    : result ShoppingCart :=
  match event with
  | ShoppingCartOpened shoppingCartId clientId openedAt =>
      Ok {| _id := Some shoppingCartId;
            _clientId := Some clientId;
            _status := Some Pending;
            _openedAt := Some openedAt;
            _productItems := [];
            _confirmedAt := _confirmedAt state;
            _canceledAt := _canceledAt state |}
  | ProductItemAddedToShoppingCart _ productItem =>
      match list_find (sameLine (productId productItem) (unitPrice productItem))
              (_productItems state) with
      | Some (i, currentProductItem) =>
          Ok (withProductItems state
                (<[i := withQuantity currentProductItem
                          (quantity currentProductItem + quantity productItem)]>
                   (_productItems state)))
      | None =>
          Ok (withProductItems state (_productItems state ++ [productItem]))
      end
  | ProductItemRemovedFromShoppingCart _ productItem =>
      match list_find (sameLine (productId productItem) (unitPrice productItem))
              (_productItems state) with
      | None => Ok state
      | Some (i, currentProductItem) =>
          let quantity' := quantity currentProductItem - quantity productItem in
          if quantity' <=? 0
          then Ok (withProductItems state (delete i (_productItems state)))
          else Ok (withProductItems state
                     (<[i := withQuantity currentProductItem quantity']>
                        (_productItems state)))
      end
  | ShoppingCartConfirmed _ confirmedAt =>
      Ok {| _id := _id state;
            _clientId := _clientId state;
            _status := Some Confirmed;
            _openedAt := _openedAt state;
            _productItems := _productItems state;
            _confirmedAt := Some confirmedAt;
            _canceledAt := _canceledAt state |}
  | ShoppingCartCanceled _ canceledAt =>
      Ok {| _id := _id state;
            _clientId := _clientId state;
            _status := Some Canceled;
            _openedAt := _openedAt state;
            _productItems := _productItems state;
            _confirmedAt := _confirmedAt state;
            _canceledAt := Some canceledAt |}
  | OtherEvent _ => Throw ShoppingCartErrors.UNKNOWN_EVENT_TYPE
  end.

(** The repository the service is built on. *)
Definition repository : Repository ShoppingCartEvent ShoppingCart :=
  EventStoreRepository default evolve.

Module ShoppingCartService.
Section Service.
Variable repository : Repository ShoppingCartEvent ShoppingCart.

Definition open (shoppingCartId clientId : string) (now : Date) : Prog ShoppingCartEvent unit :=
  on repository shoppingCartId (λ shoppingCart,
    Ok (Single (Aggregate.open shoppingCart shoppingCartId clientId now))).

Definition addProductItem (shoppingCartId : string)
    (productItem : PricedProductItem) : Prog ShoppingCartEvent unit :=
  on repository shoppingCartId (λ shoppingCart,
    Single <$> Aggregate.addProductItem shoppingCart productItem).

Definition removeProductItem (shoppingCartId : string)
    (productItem : PricedProductItem) : Prog ShoppingCartEvent unit :=
  on repository shoppingCartId (λ shoppingCart,
    Single <$> Aggregate.removeProductItem shoppingCart productItem).

Definition confirm (shoppingCartId : string) (now : Date) : Prog ShoppingCartEvent unit :=
  on repository shoppingCartId (λ shoppingCart,
    Single <$> Aggregate.confirm shoppingCart now).

Definition cancel (shoppingCartId : string) (now : Date) : Prog ShoppingCartEvent unit :=
  on repository shoppingCartId (λ shoppingCart,
    Single <$> Aggregate.cancel shoppingCart now).

End Service.
End ShoppingCartService.

End Aggregate.

(* ===================================================================== *)
(** ** The fold over the numbers of the language *)
(* ===================================================================== *)

(** Quantities and prices are values of type [number].  The module
    [Aggregate] above reads them as integers and computes exactly, which is
    what the source does as long as every number involved is an integer
    between -(2^53 - 1) and 2^53 - 1.  Here [ShoppingCart.evolve] is embedded
    once more, over any type of numbers with the operations the function
    uses, so that what is proved of it holds of the numbers of the language
    themselves, the 64-bit floating-point numbers, where sums and differences
    are rounded. *)
Module Numeric.

(** The operations [evolve] applies to numbers. *)
Class Arithmetic (number : Type) : Type := {
  plus : number → number → number;
  minus : number → number → number;
  strictEquals : number → number → bool;
  lessOrEqual : number → number → bool;
  zero : number;
}.

(** Integers, computed with exactly. *)
#[global] Instance exact : Arithmetic Z := {|
  plus := Z.add;
  minus := Z.sub;
  strictEquals := Z.eqb;
  lessOrEqual := Z.leb;
  zero := 0;
|}.

(** The numbers of the language: binary64 floating point, rounding to the
    nearest, with a NaN that equals nothing and two zeros that are equal. *)
#[global] Instance double : Arithmetic float := {|
  plus := PrimFloat.add;
  minus := PrimFloat.sub;
  strictEquals := PrimFloat.eqb;
  lessOrEqual := PrimFloat.leb;
  zero := PrimFloat.zero;
|}.

Section Fold.
Context {number : Type} `{Arithmetic number}.

Record PricedProductItem : Type := {
  productId : string;
  quantity : number;
  unitPrice : number;
}.

Inductive ShoppingCartEvent : Type :=
| ShoppingCartOpened (shoppingCartId clientId : string) (openedAt : Aggregate.Date)
| ProductItemAddedToShoppingCart (shoppingCartId : option string)
    (productItem : PricedProductItem)
| ProductItemRemovedFromShoppingCart (shoppingCartId : option string)
    (productItem : PricedProductItem)
| ShoppingCartConfirmed (shoppingCartId : option string)
    (confirmedAt : Aggregate.Date)
| ShoppingCartCanceled (shoppingCartId : option string)
    (canceledAt : Aggregate.Date)
| OtherEvent (type : string).

Record ShoppingCart : Type := {
  _id : option string;
  _clientId : option string;
  _status : option Aggregate.ShoppingCartStatus;
  _openedAt : option Aggregate.Date;
  _productItems : list PricedProductItem;
  _confirmedAt : option Aggregate.Date;
  _canceledAt : option Aggregate.Date;
}.

(** The test of the [find] callback:
    [pi.productId === productId && pi.unitPrice === unitPrice]. *)
Definition sameLine (productId' : string) (unitPrice' : number)
    (pi : PricedProductItem) : Prop :=
  productId pi = productId' ∧ strictEquals (unitPrice pi) unitPrice' = true.

#[global] Instance sameLine_dec productId' unitPrice' pi :
  Decision (sameLine productId' unitPrice' pi).
Proof. unfold sameLine. apply _. Defined.

Definition withQuantity (pi : PricedProductItem) (q : number) : PricedProductItem :=
  {| productId := productId pi; quantity := q; unitPrice := unitPrice pi |}.

Definition withProductItems (state : ShoppingCart)
    (items : list PricedProductItem) : ShoppingCart := {|
  _id := _id state;
  _clientId := _clientId state;
  _status := _status state;
  _openedAt := _openedAt state;
  _productItems := items;
  _confirmedAt := _confirmedAt state;
  _canceledAt := _canceledAt state;
|}.

(** [ShoppingCart.evolve], with [+=], [-=], [===] and [<= 0] on numbers. *)
Definition evolve (state : ShoppingCart) (event : ShoppingCartEvent)
    : result ShoppingCart :=
  match event with
  | ShoppingCartOpened shoppingCartId clientId openedAt =>
      Ok {| _id := Some shoppingCartId;
            _clientId := Some clientId;
            _status := Some Aggregate.Pending;
            _openedAt := Some openedAt;
            _productItems := [];
            _confirmedAt := _confirmedAt state;
            _canceledAt := _canceledAt state |}
  | ProductItemAddedToShoppingCart _ productItem =>
      match list_find (sameLine (productId productItem) (unitPrice productItem))
              (_productItems state) with
      | Some (i, currentProductItem) =>
          Ok (withProductItems state
                (<[i := withQuantity currentProductItem
                          (plus (quantity currentProductItem)
                             (quantity productItem))]>
                   (_productItems state)))
      | None =>
          Ok (withProductItems state (_productItems state ++ [productItem]))
      end
  | ProductItemRemovedFromShoppingCart _ productItem =>
      match list_find (sameLine (productId productItem) (unitPrice productItem))
              (_productItems state) with
      | None => Ok state
      | Some (i, currentProductItem) =>
          let quantity' :=
            minus (quantity currentProductItem) (quantity productItem) in
          if lessOrEqual quantity' zero
          then Ok (withProductItems state (delete i (_productItems state)))
          else Ok (withProductItems state
                     (<[i := withQuantity currentProductItem quantity']>
                        (_productItems state)))
      end
  | ShoppingCartConfirmed _ confirmedAt =>
      Ok {| _id := _id state;
            _clientId := _clientId state;
            _status := Some Aggregate.Confirmed;
            _openedAt := _openedAt state;
            _productItems := _productItems state;
            _confirmedAt := Some confirmedAt;
            _canceledAt := _canceledAt state |}
  | ShoppingCartCanceled _ canceledAt =>
      Ok {| _id := _id state;
            _clientId := _clientId state;
            _status := Some Aggregate.Canceled;
            _openedAt := _openedAt state;
            _productItems := _productItems state;
            _confirmedAt := _confirmedAt state;
            _canceledAt := Some canceledAt |}
  | OtherEvent _ => Throw Aggregate.ShoppingCartErrors.UNKNOWN_EVENT_TYPE
  end.

End Fold.

Arguments PricedProductItem : clear implicits.
Arguments ShoppingCartEvent : clear implicits.
Arguments ShoppingCart : clear implicits.

End Numeric.

(* ===================================================================== *)
(** ** The cashier's shopping cart (from_crud_to_eventsourcing) *)
(* ===================================================================== *)

Module Cashier.

(** Priced items have the same three fields as in the aggregate. *)
Definition PricedProductItem : Type := Aggregate.PricedProductItem.

(** The user record of a confirmation, which the reducer never looks into:
    kept as its JSON text. *)
Definition User : Type := string.

Record AdditionalInfo : Type := {
  content : option string;
  line1 : option string;
  line2 : option string;
}.

(** The four members of the [ShoppingCartEvent] union, and [OtherEvent] for
    a recorded event with any other [type].  Dates travel as JSON strings. *)
Inductive ShoppingCartEvent : Type :=
| ShoppingCartOpened (shoppingCartId : string) (openedAt : string)
| ProductItemAddedToShoppingCart (shoppingCartId : string)
    (productItem : PricedProductItem) (addedAt : string)
| ProductItemRemovedFromShoppingCart (shoppingCartId : string)
    (productItem : PricedProductItem) (removedAt : string)
| ShoppingCartConfirmed (shoppingCartId : string) (user : User)
    (additionalInfo : AdditionalInfo) (confirmedAt : string)
| OtherEvent (type : string).

Definition type (event : ShoppingCartEvent) : string :=
  match event with
  | ShoppingCartOpened _ _ => "shopping-cart-opened"
  | ProductItemAddedToShoppingCart _ _ _ => "product-item-added-to-shopping-cart"
  | ProductItemRemovedFromShoppingCart _ _ _ =>
      "product-item-removed-from-shopping-cart"
  | ShoppingCartConfirmed _ _ _ _ => "shopping-cart-confirmed"
  | OtherEvent type => type
  end.

Definition isCashierShoppingCartEvent (event : option ShoppingCartEvent) : bool :=
  match event with
  | None => false
  | Some event =>
      String.eqb (type event) "shopping-cart-opened"
      || String.eqb (type event) "product-item-added-to-shopping-cart"
      || String.eqb (type event) "product-item-removed-from-shopping-cart"
      || String.eqb (type event) "shopping-cart-confirmed"
  end.

(** [Opened = 1, Confirmed = 2, Cancelled = 4, Closed = Confirmed | Cancelled] *)
Inductive ShoppingCartStatus : Type := Opened | Confirmed | Cancelled | Closed.

(** The object the reducer builds: the three fields of the interface and the
    [openedAt] the first branch adds (the string its [Date] was made from). *)
Record ShoppingCart : Type := {
  id : string;
  openedAt : option string;
  productItems : list PricedProductItem;
  status : ShoppingCartStatus;
}.

Module ShoppingCartErrors.
Definition OPENED_EXISTING_CART : string := "OPENED_EXISTING_CART".
Definition CART_IS_NOT_OPENED : string := "CART_IS_NOT_OPENED".
Definition USER_DOES_NOT_EXISTS : string := "USER_DOES_NOT_EXISTS".
Definition NO_PRODUCTS_ITEMS : string := "NO_PRODUCTS_ITEMS".
Definition PRODUCT_ITEM_NOT_FOUND : string := "PRODUCT_ITEM_NOT_FOUND".
Definition UNKNOWN_EVENT_TYPE : string := "UNKNOWN_EVENT_TYPE".
End ShoppingCartErrors.

(** A line written with [console.error]: the format and its argument. *)
Inductive ConsoleLine : Type :=
| Error (format : string) (event : ShoppingCartEvent).

Section Reducer.
(** The two list helpers come from [./productItem]. *)
Variable addProductItem removeProductItem :
  list PricedProductItem → PricedProductItem → list PricedProductItem.

(** The function handed to [StreamAggregator] to make [getShoppingCart]:
    what it wrote to the console, and the state it returned. *)
Definition getShoppingCart_when (currentState : ShoppingCart)
    (event : ShoppingCartEvent) : list ConsoleLine * ShoppingCart :=
  match event with
  | ShoppingCartOpened shoppingCartId openedAt' =>
      ([], {| id := shoppingCartId;
              openedAt := Some openedAt';
              productItems := [];
              status := Opened |})
  | ProductItemAddedToShoppingCart _ productItem _ =>
      ([], {| id := id currentState;
              openedAt := openedAt currentState;
              productItems := addProductItem (productItems currentState) productItem;
              status := status currentState |})
  | ProductItemRemovedFromShoppingCart _ productItem _ =>
      ([], {| id := id currentState;
              openedAt := openedAt currentState;
              productItems := removeProductItem (productItems currentState) productItem;
              status := status currentState |})
  | ShoppingCartConfirmed _ _ _ _ =>
      ([], {| id := id currentState;
              openedAt := openedAt currentState;
              productItems := productItems currentState;
              status := Confirmed |})
  | OtherEvent _ =>
      ([Error "Unknown event type %s" event], currentState)
  end.

End Reducer.

(** Modelled from the spec: the helper [addProductItem] of [./productItem],
    whose source is not at hand.  On add, find the existing line by
    (productId, unitPrice); if found, increase its quantity in place; else
    append a new line. *)
Definition addProductItem (productItems : list PricedProductItem)
    (productItem : PricedProductItem) : list PricedProductItem :=
  match list_find (Aggregate.sameLine (Aggregate.productId productItem)
                     (Aggregate.unitPrice productItem)) productItems with
  | Some (i, current) =>
      <[i := Aggregate.withQuantity current
               (Aggregate.quantity current + Aggregate.quantity productItem)]>
        productItems
  | None => productItems ++ [productItem]
  end.

(** Modelled from the spec: the helper [removeProductItem] of [./productItem],
    whose source is not at hand.  On remove, find the line; if absent, skip;
    if the resulting quantity is zero or below, delete the line. *)
Definition removeProductItem (productItems : list PricedProductItem)
    (productItem : PricedProductItem) : list PricedProductItem :=
  match list_find (Aggregate.sameLine (Aggregate.productId productItem)
                     (Aggregate.unitPrice productItem)) productItems with
  | None => productItems
  | Some (i, current) =>
      let quantity' := Aggregate.quantity current - Aggregate.quantity productItem in
      if quantity' <=? 0 then delete i productItems
      else <[i := Aggregate.withQuantity current quantity']> productItems
  end.

#[global] Instance ShoppingCartStatus_eq_dec : EqDecision ShoppingCartStatus.
Proof. solve_decision. Defined.

Definition toShoppingCartStreamName (shoppingCartId : string) : string :=
  "shopping_cart-" +:+ shoppingCartId.

Definition assertShoppingCartIsOpened (shoppingCart : ShoppingCart) : result unit :=
  if decide (status shoppingCart ≠ Opened)
  then Throw ShoppingCartErrors.CART_IS_NOT_OPENED
  else Ok tt.

Definition assertHasProductItems (shoppingCart : ShoppingCart) : result unit :=
  if (length (productItems shoppingCart) =? 0)%nat
  then Throw ShoppingCartErrors.NO_PRODUCTS_ITEMS
  else Ok tt.

End Cashier.

(* ===================================================================== *)
(** ** Expected revisions read from request headers (core/http.ts) *)
(* ===================================================================== *)

Module Headers.
Import ETag.

Module HeaderNames.
Definition IF_MATCH : string := "if-match".
Definition IF_NOT_MATCH : string := "if-not-match".
End HeaderNames.

(** What [request.headers[name]] holds when the header is there: one value,
    or an array of values. *)
Inductive HeaderValue : Type :=
| OneValue (value : string)
| Values (values : list string).

(** Of a request, the header table is all these functions look at. *)
Record ApiRequest : Type := { headers : gmap string HeaderValue }.

(** [Array.isArray(etag) ? etag[0] : etag]; the first element of an empty
    array is [undefined]. *)
Definition getETagFromHeader (request : ApiRequest) (headerName : string)
    : option string :=
  match headers request !! headerName with
  | None => None
  | Some (OneValue etag) => Some etag
  | Some (Values etag) => head etag
  end.

Definition getWeakETagValueFromHeader (request : ApiRequest) (headerName : string)
    : result (option string) :=
  match getETagFromHeader request headerName with
  | None => Ok None
  | Some etag =>
      if negb (isWeakETag etag)
      then Throw ETagErrors.WRONG_WEAK_ETAG_FORMAT
      else Some <$> getWeakETagValue etag
  end.

Section ExpectedRevision.
(** [assertUnsignedBigInt] comes from [./validation]: it turns the text into
    a bigint or throws. *)
Context {bigint : Type}.
Variable assertUnsignedBigInt : string → result bigint.

Definition getExpectedRevision (request : ApiRequest) (headerName : string)
    : result (option bigint) :=
  eTag ← getWeakETagValueFromHeader request headerName;
  match eTag with
  | None => Ok None
  | Some eTag => Some <$> assertUnsignedBigInt eTag
  end.

Definition getExpectedRevisionFromIfMatch (request : ApiRequest) : result bigint :=
  revision ← getExpectedRevision request HeaderNames.IF_MATCH;
  match revision with
  | None => Throw ETagErrors.MISSING_HEADER
  | Some revision => Ok revision
  end.

Definition getExpectedRevisionFromIfNotMatch (request : ApiRequest)
    : result (option bigint) :=
  getExpectedRevision request HeaderNames.IF_NOT_MATCH.

End ExpectedRevision.

End Headers.

(* ===================================================================== *)
(** ** Vocabulary of the statements *)
(* ===================================================================== *)

Import RegExp ETag Store.

(** Every character of [s] passes the test [p]. *)
Fixpoint allChars (p : ascii → bool) (s : string) : bool :=
  match s with
  | EmptyString => true
  | String c s' => p c && allChars p s'
  end.

(** [s] has no line terminator. *)
Definition oneLine (s : string) : Prop :=
  allChars (λ c, negb (isLineTerminator c)) s = true.

(** [s] starts with what [WeakETagRegex] looks for: W, slash, a double quote,
    a digit, anything on the same line, and a double quote. *)
Definition weakETagPrefix (s : string) : Prop :=
  ∃ d mid post,
    s = "W/" +:+ String dquote (String d (mid +:+ String dquote post))
    ∧ isDigit d = true ∧ oneLine mid.

(** [s] has such a part somewhere. *)
Definition containsWeakETag (s : string) : Prop :=
  ∃ pre suf, s = pre +:+ suf ∧ weakETagPrefix suf.

(** One or more digits and then a closing quote that ends the string. *)
Fixpoint digitsThenQuote (s : string) : bool :=
  match s with
  | EmptyString => false
  | String c EmptyString => false
  | String c (String q EmptyString) => isDigit c && Ascii.eqb q dquote
  | String c rest => isDigit c && digitsThenQuote rest
  end.

(** A well-formed revision token: W, slash, and one or more digits between
    double quotes, nothing else. *)
Definition wellFormedToken (s : string) : bool :=
  match s with
  | String w (String sl (String q rest)) =>
      Ascii.eqb w "W" && Ascii.eqb sl "/" && Ascii.eqb q dquote
      && digitsThenQuote rest
  | _ => false
  end.

(** Somewhere in [s], the marker W, slash, double quote is followed by a
    digit. *)
Fixpoint digitFollowsMarker (s : string) : bool :=
  match s with
  | EmptyString => false
  | String c s' =>
      match s with
      | String w (String sl (String q (String d _))) =>
          Ascii.eqb w "W" && Ascii.eqb sl "/" && Ascii.eqb q dquote && isDigit d
      | _ => false
      end
      || digitFollowsMarker s'
  end.

(** Reading decimal digits back as a number. *)
Definition parseDecimal (s : string) : option N :=
  N.of_uint <$> NilZero.uint_of_string s.

(** A token that is not a revision token and is decoded all the same: the
    text between the quotes starts with digits and goes on with something
    else. *)
Definition dashedToken : string := "W/" +:+ quoted "12-34".

(** A token cut short: a digit follows the marker, the closing quote is
    missing. *)
Definition truncatedToken : string := "W/" +:+ String dquote "5".

(** The tail of [WeakETagRegex] after its two repetitions: close the group
    and read the closing quote. *)
Definition closing : Cont :=
  matchPattern [GroupClose; One (Literal dquote)] accept.

(* --------------------------------------------------------------------- *)
(** *** Carts, events and stores used in the statements *)

Import Aggregate.

(** The event is one of the five members of the [ShoppingCartEvent] union. *)
Definition isShoppingCartEvent (event : ShoppingCartEvent) : bool :=
  match event with
  | OtherEvent _ => false
  | _ => true
  end.

(** Every line has a strictly positive quantity. *)
Definition positiveLines (items : list PricedProductItem) : Prop :=
  Forall (λ pi, 0 < quantity pi) items.

(** The event, if it adds an item, adds a strictly positive quantity. *)
Definition addsPositive (event : ShoppingCartEvent) : Prop :=
  match event with
  | ProductItemAddedToShoppingCart _ productItem => 0 < quantity productItem
  | _ => True
  end.

(** What [find] computes from the events read: the fold from [default()]. *)
Definition folded (events : list ShoppingCartEvent) : result ShoppingCart :=
  reduce evolve events (default tt).

(** The streams of a store in memory. *)
Definition Streams : Type := gmap string (list ShoppingCartEvent).

Definition memory : EventStore ShoppingCartEvent Streams := inMemoryEventStore.

(** The streams after a command of the service has run, and its outcome. *)
Definition after (command : Prog ShoppingCartEvent unit) (streams : Streams) : Streams :=
  (run memory command streams).2.

Definition outcome (command : Prog ShoppingCartEvent unit) (streams : Streams)
    : result unit :=
  (run memory command streams).1.2.

(** One unit of product P1 at price 10, and variations on its quantity. *)
Definition p1 (quantity : Z) : PricedProductItem :=
  {| productId := "P1"; quantity := quantity; unitPrice := 10 |}.

Definition opened1 : ShoppingCartEvent := ShoppingCartOpened "cart-1" "client-1" 1000.

(** A store where cart-1 has just been opened. *)
Definition openedOnly : Streams := {[ "cart-1" := [opened1] ]}.

(** A store where cart-1 holds one unit of P1. *)
Definition oneUnit : Streams :=
  {[ "cart-1" := [opened1; ProductItemAddedToShoppingCart (Some "cart-1") (p1 1)] ]}.

(** A cart-1 that was opened, filled and confirmed. *)
Definition confirmedCart : ShoppingCart := {|
  _id := Some "cart-1";
  _clientId := Some "client-1";
  _status := Some Confirmed;
  _openedAt := Some 1000;
  _productItems := [p1 2];
  _confirmedAt := Some 3000;
  _canceledAt := None;
|}.

(** A store where cart-1 was opened, filled and then canceled, and the cart
    these events fold to. *)
Definition canceledEvents : list ShoppingCartEvent :=
  [ opened1;
    ProductItemAddedToShoppingCart (Some "cart-1") (p1 2);
    ShoppingCartCanceled (Some "cart-1") 3000 ].

Definition canceled : Streams := {[ "cart-1" := canceledEvents ]}.

Definition canceledCart : ShoppingCart := {|
  _id := Some "cart-1";
  _clientId := Some "client-1";
  _status := Some Canceled;
  _openedAt := Some 1000;
  _productItems := [p1 2];
  _confirmedAt := None;
  _canceledAt := Some 3000;
|}.

(** Three units of P1 added and one removed, and the cart this folds to. *)
Definition twoLeftEvents : list ShoppingCartEvent :=
  [ opened1;
    ProductItemAddedToShoppingCart (Some "cart-1") (p1 3);
    ProductItemRemovedFromShoppingCart (Some "cart-1") (p1 1) ].

Definition twoLeftCart : ShoppingCart := {|
  _id := Some "cart-1";
  _clientId := Some "client-1";
  _status := Some Pending;
  _openedAt := Some 1000;
  _productItems := [p1 2];
  _confirmedAt := None;
  _canceledAt := None;
|}.

(** A cart-1 that is open and empty. *)
Definition pendingCart : ShoppingCart := {|
  _id := Some "cart-1";
  _clientId := Some "client-1";
  _status := Some Pending;
  _openedAt := Some 1000;
  _productItems := [];
  _confirmedAt := None;
  _canceledAt := None;
|}.

(** A cashier's cart and an event of a type its reducer has no case for. *)
Definition cashierCart : Cashier.ShoppingCart := {|
  Cashier.id := "cart-1";
  Cashier.openedAt := Some "2022-01-01T00:00:00.000Z";
  Cashier.productItems := [p1 2];
  Cashier.status := Cashier.Opened;
|}.

Definition cancelledEvent : Cashier.ShoppingCartEvent :=
  Cashier.OtherEvent "shopping-cart-cancelled".

(* --------------------------------------------------------------------- *)
(** *** Lines and their keys; requests used in the statements *)

Import Headers.

(** What identifies a line in a cart. *)
Definition lineKey (pi : PricedProductItem) : string * Z :=
  (productId pi, unitPrice pi).

(** No two lines of the cart have the same productId and unitPrice. *)
Definition distinctKeys (state : ShoppingCart) : Prop :=
  NoDup (lineKey <$> _productItems state).

(** The quantity a cart holds under a key: that of the first line with the
    key, 0 when there is none ([currentQuantity] is this, at the key of the
    item asked about). *)
Definition quantityOf (key : string * Z) (items : list PricedProductItem) : Z :=
  match list_find (sameLine key.1 key.2) items with
  | Some (_, p) => quantity p
  | None => 0
  end.

(** The cart refuses the four guarded commands, whatever their arguments. *)
Definition rejectsCommands (this : ShoppingCart) : Prop :=
  ∀ (productItem : PricedProductItem) (now : Date),
    addProductItem this productItem
    = Throw ShoppingCartErrors.CART_IS_ALREADY_CLOSED
    ∧ removeProductItem this productItem
      = Throw ShoppingCartErrors.CART_IS_ALREADY_CLOSED
    ∧ confirm this now = Throw ShoppingCartErrors.CART_IS_ALREADY_CLOSED
    ∧ cancel this now = Throw ShoppingCartErrors.CART_IS_ALREADY_CLOSED.

(** The largest integer below which every integer is a number of the
    language ([Number.MAX_SAFE_INTEGER], 2^53 - 1), and the integers that sums
    and differences of numbers handle exactly ([Number.isSafeInteger]). *)
Definition MAX_SAFE_INTEGER : Z := 2 ^ 53 - 1.

Definition safeInteger (z : Z) : Prop :=
  - MAX_SAFE_INTEGER ≤ z ≤ MAX_SAFE_INTEGER.

(** The quantity and the price of an item are safe integers; so are those of
    every line of a cart. *)
Definition safeItem (pi : PricedProductItem) : Prop :=
  safeInteger (quantity pi) ∧ safeInteger (unitPrice pi).

Definition safeCart (state : ShoppingCart) : Prop :=
  Forall safeItem (_productItems state).

(** The carts, items and events of [Aggregate] as carts, items and events
    over exact integers in [Numeric]. *)
Definition exactItem (pi : PricedProductItem) : Numeric.PricedProductItem Z := {|
  Numeric.productId := productId pi;
  Numeric.quantity := quantity pi;
  Numeric.unitPrice := unitPrice pi;
|}.

Definition exactEvent (event : ShoppingCartEvent) : Numeric.ShoppingCartEvent Z :=
  match event with
  | ShoppingCartOpened shoppingCartId clientId openedAt =>
      Numeric.ShoppingCartOpened shoppingCartId clientId openedAt
  | ProductItemAddedToShoppingCart shoppingCartId productItem =>
      Numeric.ProductItemAddedToShoppingCart shoppingCartId (exactItem productItem)
  | ProductItemRemovedFromShoppingCart shoppingCartId productItem =>
      Numeric.ProductItemRemovedFromShoppingCart shoppingCartId (exactItem productItem)
  | ShoppingCartConfirmed shoppingCartId confirmedAt =>
      Numeric.ShoppingCartConfirmed shoppingCartId confirmedAt
  | ShoppingCartCanceled shoppingCartId canceledAt =>
      Numeric.ShoppingCartCanceled shoppingCartId canceledAt
  | OtherEvent type => Numeric.OtherEvent type
  end.

Definition exactCart (state : ShoppingCart) : Numeric.ShoppingCart Z := {|
  Numeric._id := _id state;
  Numeric._clientId := _clientId state;
  Numeric._status := _status state;
  Numeric._openedAt := _openedAt state;
  Numeric._productItems := exactItem <$> _productItems state;
  Numeric._confirmedAt := _confirmedAt state;
  Numeric._canceledAt := _canceledAt state;
|}.

(** A cart over floating-point numbers with one line of P1 at price 10. *)
Definition doubleCart (quantity : float) : Numeric.ShoppingCart float := {|
  Numeric._id := Some "cart-1";
  Numeric._clientId := Some "client-1";
  Numeric._status := Some Pending;
  Numeric._openedAt := Some 1000;
  Numeric._productItems :=
    [ {| Numeric.productId := "P1"; Numeric.quantity := quantity;
         Numeric.unitPrice := 10%float |} ];
  Numeric._confirmedAt := None;
  Numeric._canceledAt := None;
|}.

(** A request with one header. *)
Definition requestWith (headerName : string) (value : HeaderValue) : ApiRequest :=
  {| headers := {[ headerName := value ]} |}.

(** A request with no header at all. *)
Definition bareRequest : ApiRequest := {| headers := ∅ |}.

(** A stand-in for [assertUnsignedBigInt] to run the header functions with:
    it reads decimal digits. *)
Definition readDecimal (value : string) : result N :=
  match parseDecimal value with
  | Some n => Ok n
  | None => Throw "NOT_A_NUMBER"
  end.

(** Two units of P1 and one of P2 in an open cart. *)
Definition twoLinesCart : ShoppingCart := {|
  _id := Some "cart-1";
  _clientId := Some "client-1";
  _status := Some Pending;
  _openedAt := Some 1000;
  _productItems := [p1 2; {| productId := "P2"; quantity := 1; unitPrice := 7 |}];
  _confirmedAt := None;
  _canceledAt := None;
|}.

Definition twoLinesEvents : list ShoppingCartEvent :=
  [ opened1;
    ProductItemAddedToShoppingCart (Some "cart-1") (p1 2);
    ProductItemAddedToShoppingCart (Some "cart-1")
      {| productId := "P2"; quantity := 1; unitPrice := 7 |} ].

(* ===================================================================== *)
(** ** Strings and the matcher *)
(* ===================================================================== *)

Section StringFacts.

Lemma append_cons c (a b : string) : String c a +:+ b = String c (a +:+ b).
Proof. reflexivity. Qed.

Lemma append_empty_l (s : string) : EmptyString +:+ s = s.
Proof. reflexivity. Qed.

Lemma append_empty_r (s : string) : s +:+ EmptyString = s.
Proof.
  induction s as [|c s IH]; [done |]. by rewrite append_cons, IH.
Qed.

Lemma append_assoc (a b c : string) : (a +:+ b) +:+ c = a +:+ (b +:+ c).
Proof.
  induction a as [|x a IH]; [done |]. by rewrite !append_cons, IH.
Qed.

Lemma allChars_app p (a b : string) :
  allChars p (a +:+ b) = allChars p a && allChars p b.
Proof.
  induction a as [|c a IH]; [done |].
  rewrite append_cons. simpl. by rewrite IH, andb_assoc.
Qed.

Lemma allChars_impl (p q : ascii → bool) (s : string) :
  (∀ c, p c = true → q c = true) → allChars p s = true → allChars q s = true.
Proof.
  intros Hpq. induction s as [|c s IH]; simpl; [done |].
  intros [Hc Hs]%andb_true_iff. apply andb_true_iff. auto.
Qed.

Lemma isDigit_not_lineTerminator c :
  isDigit c = true → negb (isLineTerminator c) = true.
Proof.
  unfold isDigit, isLineTerminator.
  intros [H1 H2]%andb_true_iff.
  apply Nat.leb_le in H1. apply negb_true_iff, orb_false_iff.
  split; apply Nat.eqb_neq; lia.
Qed.

Lemma digits_oneLine (s : string) : allChars isDigit s = true → oneLine s.
Proof. apply allChars_impl, isDigit_not_lineTerminator. Qed.

Lemma substring_whole_prefix (a b : string) :
  substring 0 (String.length a) (a +:+ b) = a.
Proof.
  induction a as [|c a IH].
  - by destruct b.
  - rewrite append_cons. simpl. by rewrite IH.
Qed.

End StringFacts.

Ltac str_norm := rewrite ?append_cons, ?append_empty_l.

Section Matcher.

(** Whatever a greedy repetition answers, it answers after taking some
    characters of the class and handing over the rest. *)
Lemma greedy_sound cls (k : Cont) s pos caps r :
  greedy cls k s pos caps = Some r →
  ∃ s1 s2, s = s1 +:+ s2 ∧ allChars (classMatches cls) s1 = true
           ∧ k s2 (pos + String.length s1)%nat caps = Some r.
Proof.
  revert pos. induction s as [|c s IH]; intros pos; simpl.
  - intros Hk. exists EmptyString, EmptyString. simpl. by rewrite Nat.add_0_r.
  - destruct (classMatches cls c) eqn:Hc.
    + destruct (greedy cls k s (S pos) caps) as [r'|] eqn:Hg.
      * intros [= ->]. destruct (IH _ Hg) as (s1 & s2 & -> & Hs1 & Hk).
        exists (String c s1), s2. simpl. rewrite Hc, Hs1.
        split_and!; [done..|]. by rewrite Nat.add_succ_r.
      * intros Hk. exists EmptyString, (String c s). simpl. by rewrite Nat.add_0_r.
    + intros Hk. exists EmptyString, (String c s). simpl. by rewrite Nat.add_0_r.
Qed.

(** If the rest of the pattern succeeds after some characters of the class,
    the greedy repetition succeeds too (maybe further on). *)
Lemma greedy_complete cls (k : Cont) (s1 s2 : string) pos caps :
  allChars (classMatches cls) s1 = true →
  is_Some (k s2 (pos + String.length s1)%nat caps) →
  is_Some (greedy cls k (s1 +:+ s2) pos caps).
Proof.
  revert pos. induction s1 as [|c s1 IH]; intros pos; str_norm; simpl.
  - rewrite Nat.add_0_r. intros _ Hk.
    destruct s2 as [|c s2]; simpl; [done |].
    destruct (classMatches cls c); [|done].
    by destruct (greedy cls k s2 (S pos) caps).
  - intros [Hc Hs1]%andb_true_iff Hk. rewrite Hc.
    rewrite Nat.add_succ_r in Hk.
    destruct (IH (S pos) Hs1 Hk) as [r ->]. by eexists.
Qed.

Lemma closing_quote post pos caps :
  closing (String dquote post) pos caps
  = Some (S pos, {| groupStart := groupStart caps; groupEnd := pos |}).
Proof. reflexivity. Qed.

Lemma closing_inv s pos caps r :
  closing s pos caps = Some r → ∃ post, s = String dquote post.
Proof.
  unfold closing. cbn [matchPattern classMatches].
  destruct s as [|c s]; [done |].
  destruct (Ascii.eqb dquote c) eqn:Hc; [|done].
  apply Ascii.eqb_eq in Hc as <-. by eexists.
Qed.

(** On a line that ends with the closing quote, the greedy any-character
    repetition runs to the end, fails there, and gives back that quote. *)
Lemma greedy_any_to_last_quote (m : string) pos caps :
  oneLine m →
  greedy AnyChar closing (m +:+ String dquote EmptyString) pos caps
  = closing (String dquote EmptyString) (pos + String.length m)%nat caps.
Proof.
  unfold oneLine. revert pos.
  induction m as [|c m IH]; intros pos; str_norm.
  - intros _. simpl. by rewrite Nat.add_0_r.
  - simpl. intros [Hc Hm]%andb_true_iff. rewrite Hc, (IH _ Hm).
    by rewrite closing_quote, Nat.add_succ_r.
Qed.

(** The same for the digits followed by anything: whatever the digits take,
    the group ends at the last quote. *)
Lemma greedy_digits_then_any (m : string) pos caps :
  oneLine m →
  greedy Digit (greedy AnyChar closing) (m +:+ String dquote EmptyString) pos caps
  = closing (String dquote EmptyString) (pos + String.length m)%nat caps.
Proof.
  revert pos. induction m as [|c m IH]; intros pos Hm.
  - simpl. by rewrite Nat.add_0_r.
  - pose proof Hm as [Hc Hm']%andb_true_iff.
    rewrite append_cons. cbn [greedy]. destruct (classMatches Digit c).
    + rewrite (IH _ Hm'), closing_quote. cbn [String.length].
      by rewrite Nat.add_succ_r.
    + rewrite <- append_cons. apply (greedy_any_to_last_quote (String c m)), Hm.
Qed.

End Matcher.

Section WeakETagMatcher.

Lemma matchHere_weakETag_sound s pos r :
  matchHere WeakETagRegex s pos = Some r → weakETagPrefix s.
Proof.
  unfold matchHere, WeakETagRegex. cbn [matchPattern classMatches].
  destruct s as [|c1 [|c2 [|c3 [|c4 s]]]];
    repeat (try done; match goal with
            | |- context [Ascii.eqb ?a ?b] =>
                destruct (Ascii.eqb a b) eqn:?
            end); try done.
  repeat match goal with
         | H : Ascii.eqb _ _ = true |- _ => apply Ascii.eqb_eq in H; subst
         end.
  destruct (isDigit c4) eqn:Hd; [|done].
  intros (ds & rest & -> & Hds & Hrest)%greedy_sound.
  apply greedy_sound in Hrest as (m & tail & -> & Hm & Htail).
  apply closing_inv in Htail as [post ->].
  exists c4, (ds +:+ m), post. split_and!; [|done|].
  - by rewrite append_assoc.
  - unfold oneLine. rewrite allChars_app. apply andb_true_iff. split; [|done].
    by apply digits_oneLine.
Qed.

Lemma matchHere_weakETag_complete s pos :
  weakETagPrefix s → is_Some (matchHere WeakETagRegex s pos).
Proof.
  intros (d & mid & post & -> & Hd & Hmid).
  unfold matchHere, WeakETagRegex. str_norm.
  cbn [matchPattern classMatches]. rewrite !Ascii.eqb_refl, Hd.
  apply (greedy_complete Digit _ EmptyString); [done |].
  apply (greedy_complete AnyChar); [done |].
  by eexists.
Qed.

Lemma search_is_Some p s pos :
  is_Some (search p s pos) ↔
  ∃ pre suf, s = pre +:+ suf
             ∧ is_Some (matchHere p suf (pos + String.length pre)%nat).
Proof.
  split.
  - revert pos. induction s as [|c s IH]; intros pos; cbn [search].
    + destruct (matchHere p EmptyString pos) as [[e caps]|] eqn:Hm.
      * intros _. exists EmptyString, EmptyString. simpl.
        rewrite Nat.add_0_r, Hm. by eexists.
      * by intros [? [=]].
    + destruct (matchHere p (String c s) pos) as [[e caps]|] eqn:Hm.
      * intros _. exists EmptyString, (String c s). simpl.
        rewrite Nat.add_0_r, Hm. by eexists.
      * intros (pre & suf & -> & Hsuf)%IH.
        exists (String c pre), suf. split; [done |].
        simpl. by rewrite Nat.add_succ_r.
  - intros (pre & suf & -> & Hsuf). revert pos Hsuf.
    induction pre as [|c pre IH]; intros pos Hsuf.
    + simpl in Hsuf. rewrite Nat.add_0_r in Hsuf. str_norm.
      destruct suf as [|c suf]; cbn [search];
        destruct Hsuf as [[e caps] ->]; by eexists.
    + rewrite append_cons. cbn [search].
      destruct (matchHere p (String c (pre +:+ suf)) pos) as [[e caps]|];
        [by eexists |].
      apply IH. simpl in Hsuf. by rewrite Nat.add_succ_r in Hsuf.
Qed.

Lemma exec_is_Some (s : string) :
  is_Some (exec WeakETagRegex s) ↔ containsWeakETag s.
Proof.
  unfold exec, containsWeakETag.
  trans (is_Some (search WeakETagRegex s 0)).
  - destruct (search WeakETagRegex s 0) as [[[b e] caps]|];
      split; intros [? [=]]; by eexists.
  - rewrite search_is_Some. split.
    + intros (pre & suf & -> & [r Hr]).
      exists pre, suf. eauto using matchHere_weakETag_sound.
    + intros (pre & suf & -> & Hsuf).
      exists pre, suf. eauto using matchHere_weakETag_complete.
Qed.

(** [getWeakETagValue] returns exactly when the input has a weak-ETag part. *)
Lemma getWeakETagValue_Ok_iff (etag : string) :
  (∃ v, getWeakETagValue etag = Ok v) ↔ containsWeakETag etag.
Proof.
  rewrite <- exec_is_Some. unfold getWeakETagValue.
  destruct (exec WeakETagRegex etag) as [weak|]; simpl.
  - split; [by eexists | by eexists].
  - split; [by intros [? [=]] | by intros [? [=]]].
Qed.

(** It throws, and then always the format error, exactly when there is none. *)
Lemma getWeakETagValue_Throw_iff (etag : string) message :
  getWeakETagValue etag = Throw message ↔
  message = ETagErrors.WRONG_WEAK_ETAG_FORMAT ∧ ¬ containsWeakETag etag.
Proof.
  rewrite <- exec_is_Some. unfold getWeakETagValue.
  destruct (exec WeakETagRegex etag) as [weak|]; simpl.
  - split; [done |]. intros [_ []]. by eexists.
  - split.
    + intros [= <-]. split; [done |]. by intros [? [=]].
    + by intros [-> _].
Qed.

(** A token that is exactly W, slash, and a quoted text starting with a digit
    and staying on one line decodes to that text, whatever follows the digit. *)
Lemma getWeakETagValue_quoted d (mid : string) :
  isDigit d = true → oneLine mid →
  getWeakETagValue ("W/" +:+ quoted (String d mid)) = Ok (String d mid).
Proof.
  intros Hd Hmid. unfold getWeakETagValue, exec, quoted. str_norm.
  cbn [search]. unfold matchHere, WeakETagRegex.
  cbn [matchPattern classMatches]. rewrite !Ascii.eqb_refl, Hd.
  change (matchPattern [ZeroOrMore AnyChar; GroupClose; One (Literal dquote)] accept)
    with (greedy AnyChar closing).
  rewrite (greedy_digits_then_any mid) by done.
  rewrite closing_quote. cbn [groupStart groupEnd Array.length at1 Nat.eqb].
  f_equal.
  replace (4 + String.length mid - 3)%nat with (S (String.length mid)) by lia.
  cbn [substring]. f_equal. apply substring_whole_prefix.
Qed.

End WeakETagMatcher.

Section Decimal.

Lemma string_of_uint_digits (u : Decimal.uint) :
  allChars isDigit (NilEmpty.string_of_uint u) = true.
Proof. induction u; simpl; auto. Qed.

(** The decimal text of a number is a digit followed by digits. *)
Lemma decimal_digits (r : N) :
  ∃ d ds, decimal r = String d ds ∧ isDigit d = true ∧ allChars isDigit ds = true.
Proof.
  unfold decimal, NilZero.string_of_uint.
  pose proof (string_of_uint_digits (N.to_uint r)) as H.
  destruct (N.to_uint r); simpl in *; eauto.
Qed.

Lemma to_uint_nonnil (r : N) : N.to_uint r ≠ Decimal.Nil.
Proof.
  destruct r as [|p]; [done |]. apply DecimalPos.Unsigned.to_uint_nonnil.
Qed.

Lemma parseDecimal_decimal (r : N) : parseDecimal (decimal r) = Some r.
Proof.
  unfold parseDecimal, decimal.
  rewrite NilZero.usu by apply to_uint_nonnil.
  simpl. by rewrite DecimalN.Unsigned.of_to.
Qed.

Lemma digitsThenQuote_digits d (ds : string) :
  isDigit d = true → allChars isDigit ds = true →
  digitsThenQuote (String d (ds +:+ String dquote EmptyString)) = true.
Proof.
  revert d. induction ds as [|c ds IH]; intros d Hd Hds; str_norm.
  - simpl. by rewrite Hd.
  - simpl in Hds. apply andb_true_iff in Hds as [Hc Hds].
    specialize (IH c Hc Hds).
    cbn [digitsThenQuote]. rewrite Hd.
    destruct (ds +:+ String dquote EmptyString) eqn:E; [|done].
    by destruct ds.
Qed.

End Decimal.

(* ===================================================================== *)
(** ** Weak ETags: encoding and decoding *)
(* ===================================================================== *)

(** C4, where the claim fails: a malformed token is not rejected with the
    format error; [getWeakETagValue] returns the text between the quotes. *)
Lemma malformed_token_is_decoded :
  wellFormedToken dashedToken = false
  ∧ getWeakETagValue dashedToken = Ok "12-34".
Proof. split; vm_compute; reflexivity. Qed.

(** C4, as the code has it: for every non-negative integer [r] given as a
    bigint, which is what a revision is, [toWeakETag] produces exactly W,
    slash, and the decimal digits of [r] between double quotes, a well-formed
    token; [getWeakETagValue] of that token returns the
    decimal digits of [r], a string that reads back as [r]; and decoding any
    [etag] throws WRONG_WEAK_ETAG_FORMAT exactly when [etag] has no part made
    of W, slash, a double quote, a digit, any characters of the same line and
    a double quote. *)
Theorem weak_etag_round_trip (r : N) (etag : string) :
  toWeakETag (BigInt r) = "W/" +:+ quoted (decimal r)
  ∧ wellFormedToken (toWeakETag (BigInt r)) = true
  ∧ getWeakETagValue (toWeakETag (BigInt r)) = Ok (decimal r)
  ∧ parseDecimal (decimal r) = Some r
  ∧ (getWeakETagValue etag = Throw ETagErrors.WRONG_WEAK_ETAG_FORMAT
     ↔ ¬ containsWeakETag etag).
Proof.
  destruct (decimal_digits r) as (d & ds & E & Hd & Hds).
  split_and!.
  - reflexivity.
  - unfold toWeakETag, toString. rewrite E. unfold quoted. str_norm.
    unfold wellFormedToken. rewrite !Ascii.eqb_refl. simpl andb.
    by apply digitsThenQuote_digits.
  - unfold toWeakETag, toString. rewrite E.
    apply getWeakETagValue_quoted; [done |]. by apply digits_oneLine.
  - apply parseDecimal_decimal.
  - rewrite getWeakETagValue_Throw_iff. split; [by intros [_ ?] | done].
Qed.

(** C10, where the claim fails: the format error is raised although a digit
    follows W, slash, double quote in the input. *)
Lemma truncated_token_is_rejected :
  digitFollowsMarker truncatedToken = true
  ∧ getWeakETagValue truncatedToken = Throw ETagErrors.WRONG_WEAK_ETAG_FORMAT.
Proof. split; vm_compute; reflexivity. Qed.

(** C10, as the code has it: [getWeakETagValue] succeeds on every input that
    has a part made of W, slash, a double quote, a digit, any characters of
    the same line and a double quote, and on no other input; when the input
    is exactly W, slash and a quoted text that starts with a digit, the text is
    returned with everything that follows the digits, so the malformed token
    with the text 5abc between its quotes decodes to 5abc; the format error is
    raised exactly when the input has no such part. *)
Theorem weak_etag_decoding_keeps_trailing_text :
  (∀ etag, (∃ v, getWeakETagValue etag = Ok v) ↔ containsWeakETag etag)
  ∧ (∀ d mid, isDigit d = true → oneLine mid →
       getWeakETagValue ("W/" +:+ quoted (String d mid)) = Ok (String d mid))
  ∧ wellFormedToken ("W/" +:+ quoted "5abc") = false
  ∧ getWeakETagValue ("W/" +:+ quoted "5abc") = Ok "5abc"
  ∧ (∀ etag message,
       getWeakETagValue etag = Throw message ↔
       message = ETagErrors.WRONG_WEAK_ETAG_FORMAT ∧ ¬ containsWeakETag etag).
Proof.
  split_and!.
  - apply getWeakETagValue_Ok_iff.
  - apply getWeakETagValue_quoted.
  - reflexivity.
  - by apply (getWeakETagValue_quoted "5" "abc").
  - apply getWeakETagValue_Throw_iff.
Qed.

(** The theorem at work on a token that carries a quality value after its
    digit. *)
Lemma weak_etag_decoding_keeps_trailing_text_witness :
  getWeakETagValue ("W/" +:+ quoted "7;q=0.5") = Ok "7;q=0.5".
Proof.
  apply (proj1 (proj2 weak_etag_decoding_keeps_trailing_text) "7"%char ";q=0.5");
    reflexivity.
Defined.

(* ===================================================================== *)
(** ** The repository *)
(* ===================================================================== *)

Section RepositoryFacts.
Context {StreamEvent Entity S : Type}.
Variable eventStore : EventStore StreamEvent S.
Variable getInitialState : unit → Entity.
Variable evolve : Entity → StreamEvent → result Entity.

(** What [find] does with the events the store hands back. *)
Lemma run_find s id events :
  readStream eventStore s id = Ok events →
  run eventStore (find (EventStoreRepository getInitialState evolve) id) s
  = ([ReadStreamCall id], reduce evolve events (getInitialState tt), s).
Proof.
  intros Hread. simpl. rewrite Hread.
  by destruct (reduce evolve events (getInitialState tt)).
Qed.

(** An exception of [readStream] goes through [find] as it is. *)
Lemma run_find_throw s id message :
  readStream eventStore s id = Throw message →
  run eventStore (find (EventStoreRepository getInitialState evolve) id) s = ([ReadStreamCall id], Throw message, s).
Proof. intros Hread. simpl. by rewrite Hread. Qed.

(** [on] when the handler throws: the store is read and nothing else. *)
Lemma run_on_throw s id events aggregate handle message :
  readStream eventStore s id = Ok events →
  reduce evolve events (getInitialState tt) = Ok aggregate →
  handle aggregate = Throw message →
  run eventStore (on (EventStoreRepository getInitialState evolve) id handle) s
  = ([ReadStreamCall id], Throw message, s).
Proof.
  intros Hread Hfold Hhandle. unfold on. simpl.
  by rewrite Hread, Hfold; simpl; rewrite Hhandle.
Qed.

(** [on] when the handler returns one event: it is appended. *)
Lemma run_on_single s s' id events aggregate handle event :
  readStream eventStore s id = Ok events →
  reduce evolve events (getInitialState tt) = Ok aggregate →
  handle aggregate = Ok (Single event) →
  appendToStream eventStore s id [event] = Ok s' →
  run eventStore (on (EventStoreRepository getInitialState evolve) id handle) s
  = ([ReadStreamCall id; AppendToStreamCall id [event]], Ok tt, s').
Proof.
  intros Hread Hfold Hhandle Happend. unfold on. simpl.
  by rewrite Hread, Hfold; simpl; rewrite Hhandle; simpl; rewrite Happend.
Qed.

End RepositoryFacts.

(** With at least one event, [store] makes one call, [appendToStream], with
    the events it was given. *)
Lemma store_events_appends {StreamEvent Entity S : Type}
    (getInitialState : unit → Entity)
    (evolve : Entity → StreamEvent → result Entity)
    (eventStore : EventStore StreamEvent S) (s s' : S) (id : string)
    (event : StreamEvent) (events : list StreamEvent) :
  appendToStream eventStore s id (event :: events) = Ok s' →
  run eventStore
    (store (EventStoreRepository getInitialState evolve) id (event :: events)) s
  = ([AppendToStreamCall id (event :: events)], Ok tt, s').
Proof. intros Happend. simpl. by rewrite Happend. Qed.

(** C9: for every entity id, [store] called with no event returns at once:
    it is the program that does nothing, so whatever the event store is, it
    receives no call (no [appendToStream]) and is left as it was. *)
Theorem store_nothing_is_noop {StreamEvent Entity S : Type}
    (getInitialState : unit → Entity)
    (evolve : Entity → StreamEvent → result Entity)
    (eventStore : EventStore StreamEvent S) (s : S) (id : string) :
  store (EventStoreRepository getInitialState evolve) id [] = Return tt
  ∧ run eventStore (store (EventStoreRepository getInitialState evolve) id []) s
    = ([], Ok tt, s).
Proof. split; reflexivity. Qed.

(* ===================================================================== *)
(** ** The fold *)
(* ===================================================================== *)

Section Fold.

(** An event whose tag is none of the five is an [OtherEvent]. *)
Lemma unknown_type_inv (event : ShoppingCartEvent) :
  type event ∉ knownEventTypes → ∃ t, event = OtherEvent t.
Proof.
  destruct event; try (by eexists); intros []; unfold knownEventTypes; simpl;
    set_solver.
Qed.

(** The only exception [evolve] throws is UNKNOWN_EVENT_TYPE. *)
Lemma evolve_Throw_inv state event message :
  evolve state event = Throw message →
  message = ShoppingCartErrors.UNKNOWN_EVENT_TYPE ∧ isShoppingCartEvent event = false.
Proof.
  destruct event; simpl; try done.
  - by destruct (list_find _ _) as [[??]|].
  - destruct (list_find _ _) as [[??]|]; [|done]. by case_match.
  - by intros [= <-].
Qed.

(** On the members of the union, [evolve] always returns. *)
Lemma evolve_total state event :
  isShoppingCartEvent event = true → ∃ state', evolve state event = Ok state'.
Proof.
  destruct (evolve state event) as [state'|message] eqn:E; [by eexists |].
  apply evolve_Throw_inv in E as [_ E]. congruence.
Qed.

Lemma reduce_evolve_total events state :
  Forall (λ e, isShoppingCartEvent e = true) events →
  ∃ state', reduce evolve events state = Ok state'.
Proof.
  intros Hall. revert state.
  induction Hall as [|e events He _ IH]; intros state; simpl; [by eexists |].
  destruct (evolve_total state e He) as [state' ->]. apply IH.
Qed.

(** A stream with an event of unknown type cannot be folded. *)
Lemma reduce_evolve_unknown events event state :
  event ∈ events → type event ∉ knownEventTypes →
  reduce evolve events state = Throw ShoppingCartErrors.UNKNOWN_EVENT_TYPE.
Proof.
  intros Hin Hunknown. revert state.
  induction Hin as [event events|event e events Hin IH]; intros state; simpl.
  - by destruct (unknown_type_inv _ Hunknown) as [t ->].
  - destruct (evolve state e) as [state'|message] eqn:E; simpl; [by apply IH |].
    by apply evolve_Throw_inv in E as [-> _].
Qed.

Lemma cashier_unknown_inv (event : Cashier.ShoppingCartEvent) :
  Cashier.isCashierShoppingCartEvent (Some event) = false →
  ∃ t, event = Cashier.OtherEvent t.
Proof. destruct event; try done. by eexists. Qed.

End Fold.

(** C1, where the claim fails: the reducer of [getShoppingCart] meets an event
    of a type it has no case for, writes it to the console and returns the
    prior state unchanged. *)
Lemma cashier_reducer_keeps_state_on_unknown_event :
  Cashier.isCashierShoppingCartEvent (Some cancelledEvent) = false
  ∧ Cashier.getShoppingCart_when Cashier.addProductItem Cashier.removeProductItem
      cashierCart cancelledEvent
    = ([Cashier.Error "Unknown event type %s" cancelledEvent], cashierCart).
Proof. split; reflexivity. Qed.

(** C1, as the code has it: [ShoppingCart.evolve] throws UNKNOWN_EVENT_TYPE on
    every event whose type is none of the five it knows, in every state, so
    [find] fails with that error on every stream that holds such an event,
    whatever comes before or after it; the reducer of [getShoppingCart] does
    not fail on an event of a type it does not know: it writes the event to
    the console and returns the prior state. *)
Theorem unknown_event_type_handling :
  (∀ state event,
     type event ∉ knownEventTypes →
     evolve state event = Throw ShoppingCartErrors.UNKNOWN_EVENT_TYPE)
  ∧ (∀ S (eventStore : EventStore ShoppingCartEvent S) s id events event,
       readStream eventStore s id = Ok events →
       event ∈ events → type event ∉ knownEventTypes →
       run eventStore (find repository id) s
       = ([ReadStreamCall id], Throw ShoppingCartErrors.UNKNOWN_EVENT_TYPE, s))
  ∧ (∀ addProductItem removeProductItem currentState event,
       Cashier.isCashierShoppingCartEvent (Some event) = false →
       Cashier.getShoppingCart_when addProductItem removeProductItem
         currentState event
       = ([Cashier.Error "Unknown event type %s" event], currentState)).
Proof.
  split_and!.
  - intros state event [t ->]%unknown_type_inv. reflexivity.
  - intros S eventStore s id events event Hread Hin Hunknown.
    unfold repository. rewrite (run_find _ _ _ _ _ _ Hread).
    by rewrite (reduce_evolve_unknown _ _ _ Hin Hunknown).
  - intros add remove currentState event [t ->]%cashier_unknown_inv.
    reflexivity.
Qed.

(** The theorem at work: an event tagged ShoppingCartReopened, applied to a
    confirmed cart. *)
Lemma unknown_event_type_handling_witness :
  evolve confirmedCart (OtherEvent "ShoppingCartReopened")
  = Throw ShoppingCartErrors.UNKNOWN_EVENT_TYPE.
Proof.
  apply (proj1 unknown_event_type_handling).
  apply (bool_decide_unpack _). reflexivity.
Defined.

(* ===================================================================== *)
(** ** Reading a stream that has no event *)
(* ===================================================================== *)

(** C2, where the claim fails: [find] on a stream that reads as the empty
    sequence returns normally, with the cart [default()] builds; nothing is
    thrown and nothing says that the cart was not found. *)
Lemma empty_stream_reads_as_default_cart :
  readStream memory ∅ "cart-1" = Ok []
  ∧ run memory (find repository "cart-1") ∅
    = ([ReadStreamCall "cart-1"], Ok (default tt), ∅).
Proof. split; reflexivity. Qed.

(** C2, as the code has it: when the stream reads as the empty sequence,
    [find] returns the initial state, [getInitialState()], and does so
    whatever the fold function is, which is therefore not called; no
    not-found outcome is signalled.  For the cart the initial state is
    [default()], with no status and no line, which differs from a cart that
    was opened and is still empty: that one has the status Pending.  The
    repository raises nothing of its own: an exception of [readStream] is the
    only way for [find] to fail before the fold. *)
Theorem find_on_empty_stream {StreamEvent Entity S : Type}
    (eventStore : EventStore StreamEvent S)
    (getInitialState : unit → Entity)
    (evolve : Entity → StreamEvent → result Entity) (s : S) (id : string) :
  readStream eventStore s id = Ok [] →
  run eventStore (find (EventStoreRepository getInitialState evolve) id) s
  = ([ReadStreamCall id], Ok (getInitialState tt), s)
  ∧ (∀ s0 id0 message,
       readStream eventStore s0 id0 = Throw message →
       run eventStore (find (EventStoreRepository getInitialState evolve) id0) s0
       = ([ReadStreamCall id0], Throw message, s0))
  ∧ _status (default tt) = None
  ∧ _productItems (default tt) = []
  ∧ (∀ shoppingCartId clientId openedAt,
       ∃ cart, folded [ShoppingCartOpened shoppingCartId clientId openedAt] = Ok cart
               ∧ _status cart = Some Pending
               ∧ _productItems cart = []
               ∧ cart ≠ default tt).
Proof.
  intros Hread. split_and!; try done.
  - by rewrite (run_find _ _ _ _ _ _ Hread).
  - intros s0 id0 message Hthrow. by apply run_find_throw.
  - intros shoppingCartId clientId openedAt. eexists. by split_and!.
Qed.

(** The theorem at work on the cart repository and a store with no stream. *)
Lemma find_on_empty_stream_witness :
  run memory (find repository "cart-7") ∅
  = ([ReadStreamCall "cart-7"], Ok (default tt), ∅)
  ∧ (∀ s0 id0 message,
       readStream memory s0 id0 = Throw message →
       run memory (find repository id0) s0
       = ([ReadStreamCall id0], Throw message, s0))
  ∧ _status (default tt) = None
  ∧ _productItems (default tt) = []
  ∧ (∀ shoppingCartId clientId openedAt,
       ∃ cart, folded [ShoppingCartOpened shoppingCartId clientId openedAt] = Ok cart
               ∧ _status cart = Some Pending
               ∧ _productItems cart = []
               ∧ cart ≠ default tt).
Proof.
  apply (find_on_empty_stream memory default Aggregate.evolve ∅ "cart-7").
  reflexivity.
Defined.

(* ===================================================================== *)
(** ** Opening a cart *)
(* ===================================================================== *)

(** C3, where the claim fails: cart-1 is already open; the service opens it
    again, nothing is rejected, and a second ShoppingCartOpened event is
    appended to its stream. *)
Lemma open_again_appends_opened_event :
  folded [opened1] = Ok pendingCart
  ∧ (let '(calls, outcome, streams) :=
       run memory
         (ShoppingCartService.open repository "cart-1" "client-2" 2000)
         openedOnly in
     (calls, outcome, readStream memory streams "cart-1"))
    = ([ ReadStreamCall "cart-1";
         AppendToStreamCall "cart-1" [ShoppingCartOpened "cart-1" "client-2" 2000] ],
       Ok tt,
       Ok [opened1; ShoppingCartOpened "cart-1" "client-2" 2000]).
Proof. split; reflexivity. Qed.

(** C3, as the code has it: [open] has no precondition.  On every cart, open
    already or not, it returns a ShoppingCartOpened event with the id, client
    and date it was given; and the service, whatever the stream holds (as long
    as it can be folded), appends that event to it.  Nothing in the code
    rejects a second opening. *)
Theorem open_has_no_precondition {S : Type}
    (eventStore : EventStore ShoppingCartEvent S) (s s' : S)
    (events : list ShoppingCartEvent) (cart : ShoppingCart)
    (shoppingCartId clientId : string) (now : Date) :
  readStream eventStore s shoppingCartId = Ok events →
  folded events = Ok cart →
  appendToStream eventStore s shoppingCartId
    [ShoppingCartOpened shoppingCartId clientId now] = Ok s' →
  open cart shoppingCartId clientId now
  = ShoppingCartOpened shoppingCartId clientId now
  ∧ run eventStore
      (ShoppingCartService.open repository shoppingCartId clientId now) s
    = ([ ReadStreamCall shoppingCartId;
         AppendToStreamCall shoppingCartId
           [ShoppingCartOpened shoppingCartId clientId now] ],
       Ok tt, s').
Proof.
  intros Hread Hfold Happend. split; [done |].
  unfold ShoppingCartService.open, repository.
  by eapply run_on_single.
Qed.

(** The theorem at work: opening a cart that does not exist yet, and the
    stream afterwards. *)
Lemma open_has_no_precondition_witness :
  open (default tt) "cart-2" "client-1" 1000
  = ShoppingCartOpened "cart-2" "client-1" 1000
  ∧ run memory (ShoppingCartService.open repository "cart-2" "client-1" 1000)
      openedOnly
    = ([ ReadStreamCall "cart-2";
         AppendToStreamCall "cart-2" [ShoppingCartOpened "cart-2" "client-1" 1000] ],
       Ok tt,
       <["cart-2" := [ShoppingCartOpened "cart-2" "client-1" 1000]]> openedOnly).
Proof.
  apply (open_has_no_precondition memory openedOnly _ [] (default tt));
    reflexivity.
Defined.

(* ===================================================================== *)
(** ** Commands on a cart *)
(* ===================================================================== *)

Section Commands.

Lemma assertIsPending_pending this :
  _status this = Some Pending → assertIsPending this = Ok tt.
Proof. intros H. unfold assertIsPending. rewrite H. by case_decide. Qed.

Lemma assertIsPending_closed this :
  _status this ≠ Some Pending →
  assertIsPending this = Throw ShoppingCartErrors.CART_IS_ALREADY_CLOSED.
Proof. intros H. unfold assertIsPending. by case_decide. Qed.

Lemma assertIsPending_Ok_inv this :
  assertIsPending this = Ok tt → _status this = Some Pending.
Proof.
  unfold assertIsPending.
  destruct (decide (_status this ≠ Some Pending)) as [H|H]; [done |].
  intros _. by apply dec_stable.
Qed.

(** With no matching line the quantity compared with is 0. *)
Lemma currentQuantity_absent this productItem :
  Forall (λ p, ¬ sameLine (productId productItem) (unitPrice productItem) p)
    (_productItems this) →
  currentQuantity this productItem = 0.
Proof.
  intros H. apply (list_find_None _) in H.
  unfold currentQuantity. by rewrite H.
Qed.

(** Otherwise it is the quantity of the first matching line. *)
Lemma currentQuantity_present this productItem i line :
  _productItems this !! i = Some line →
  sameLine (productId productItem) (unitPrice productItem) line →
  (∀ j other, _productItems this !! j = Some other → (j < i)%nat →
     ¬ sameLine (productId productItem) (unitPrice productItem) other) →
  currentQuantity this productItem = quantity line.
Proof.
  intros Hi Hline Hfirst. unfold currentQuantity.
  by rewrite (proj2 (list_find_Some _ _ i line)).
Qed.

Lemma removeProductItem_missing this productItem :
  _status this = Some Pending →
  currentQuantity this productItem < quantity productItem →
  removeProductItem this productItem
  = Throw ShoppingCartErrors.PRODUCT_ITEM_NOT_FOUND.
Proof.
  intros Hstatus Hlt. unfold removeProductItem, assertProductItemExists.
  rewrite (assertIsPending_pending _ Hstatus). simpl.
  by rewrite (proj2 (Z.ltb_lt _ _) Hlt).
Qed.

Lemma removeProductItem_enough this productItem :
  _status this = Some Pending →
  quantity productItem ≤ currentQuantity this productItem →
  removeProductItem this productItem
  = Ok (ProductItemRemovedFromShoppingCart (_id this) productItem).
Proof.
  intros Hstatus Hle. unfold removeProductItem, assertProductItemExists.
  rewrite (assertIsPending_pending _ Hstatus). simpl.
  by rewrite (proj2 (Z.ltb_ge _ _) Hle).
Qed.

End Commands.

(** C5: for every cart in Pending status, folded from the events of its
    stream, and every item to remove: when the quantity asked for exceeds the
    quantity of the matching (productId, unitPrice) line, an absent line
    counting for 0, [removeProductItem] throws PRODUCT_ITEM_NOT_FOUND, and the
    service then has read the stream and appended nothing, the store being
    as before; when the line holds at least the quantity asked for, a
    ProductItemRemovedFromShoppingCart event is returned and appended. *)
Theorem remove_product_item_needs_quantity {S : Type}
    (eventStore : EventStore ShoppingCartEvent S) (s : S) (id : string)
    (events : list ShoppingCartEvent) (this : ShoppingCart)
    (productItem : PricedProductItem) :
  readStream eventStore s id = Ok events →
  folded events = Ok this →
  _status this = Some Pending →
  (currentQuantity this productItem < quantity productItem →
     removeProductItem this productItem
     = Throw ShoppingCartErrors.PRODUCT_ITEM_NOT_FOUND
     ∧ run eventStore
         (ShoppingCartService.removeProductItem repository id productItem) s
       = ([ReadStreamCall id],
          Throw ShoppingCartErrors.PRODUCT_ITEM_NOT_FOUND, s))
  ∧ (quantity productItem ≤ currentQuantity this productItem →
     removeProductItem this productItem
     = Ok (ProductItemRemovedFromShoppingCart (_id this) productItem)
     ∧ ∀ s',
         appendToStream eventStore s id
           [ProductItemRemovedFromShoppingCart (_id this) productItem] = Ok s' →
         run eventStore
           (ShoppingCartService.removeProductItem repository id productItem) s
         = ([ ReadStreamCall id;
              AppendToStreamCall id
                [ProductItemRemovedFromShoppingCart (_id this) productItem] ],
            Ok tt, s')).
Proof.
  intros Hread Hfold Hstatus. split.
  - intros Hlt.
    pose proof (removeProductItem_missing _ _ Hstatus Hlt) as Hthrow.
    split; [done |].
    unfold ShoppingCartService.removeProductItem, repository.
    eapply run_on_throw; [done.. |]. by rewrite Hthrow.
  - intros Hle.
    pose proof (removeProductItem_enough _ _ Hstatus Hle) as Hok.
    split; [done |]. intros s' Happend.
    unfold ShoppingCartService.removeProductItem, repository.
    eapply run_on_single; [done.. | | done]. by rewrite Hok.
Qed.

(** The theorem at work on the scenario of the specification: the cart holds
    one unit of P1 at price 10, and two are to be removed. *)
Lemma remove_product_item_needs_quantity_witness :
  run memory (ShoppingCartService.removeProductItem repository "cart-1" (p1 2))
    oneUnit
  = ([ReadStreamCall "cart-1"],
     Throw ShoppingCartErrors.PRODUCT_ITEM_NOT_FOUND, oneUnit).
Proof.
  refine (proj2 (proj1
    (remove_product_item_needs_quantity memory oneUnit "cart-1" _ _ (p1 2)
       eq_refl eq_refl eq_refl) _)).
  reflexivity.
Defined.

(* ===================================================================== *)
(** ** A cart that has left the Pending status *)
(* ===================================================================== *)

Section ClosedCart.

Lemma addProductItem_closed this productItem :
  _status this ≠ Some Pending →
  addProductItem this productItem
  = Throw ShoppingCartErrors.CART_IS_ALREADY_CLOSED.
Proof.
  intros H. unfold addProductItem. by rewrite assertIsPending_closed.
Qed.

Lemma removeProductItem_closed this productItem :
  _status this ≠ Some Pending →
  removeProductItem this productItem
  = Throw ShoppingCartErrors.CART_IS_ALREADY_CLOSED.
Proof.
  intros H. unfold removeProductItem. by rewrite assertIsPending_closed.
Qed.

Lemma confirm_closed this now :
  _status this ≠ Some Pending →
  confirm this now = Throw ShoppingCartErrors.CART_IS_ALREADY_CLOSED.
Proof. intros H. unfold confirm. by rewrite assertIsPending_closed. Qed.

Lemma cancel_closed this now :
  _status this ≠ Some Pending →
  cancel this now = Throw ShoppingCartErrors.CART_IS_ALREADY_CLOSED.
Proof. intros H. unfold cancel. by rewrite assertIsPending_closed. Qed.

(** A command that returns an event was issued on a Pending cart. *)
Lemma command_Ok_pending this productItem now event :
  addProductItem this productItem = Ok event
  ∨ removeProductItem this productItem = Ok event
  ∨ confirm this now = Ok event
  ∨ cancel this now = Ok event →
  _status this = Some Pending.
Proof.
  destruct (decide (_status this = Some Pending)) as [|Hclosed]; [done |].
  rewrite addProductItem_closed, removeProductItem_closed,
    confirm_closed, cancel_closed by done.
  intros [H|[H|[H|H]]]; discriminate.
Qed.

(** Events about items leave the status alone. *)
Lemma evolve_item_event_status state shoppingCartId productItem state' :
  evolve state (ProductItemAddedToShoppingCart shoppingCartId productItem) = Ok state'
  ∨ evolve state (ProductItemRemovedFromShoppingCart shoppingCartId productItem)
    = Ok state' →
  _status state' = _status state.
Proof.
  simpl. destruct (list_find _ _) as [[i line]|].
  - case_match; intros [[= <-]|[= <-]]; done.
  - intros [[= <-]|[= <-]]; done.
Qed.

End ClosedCart.

(** C8, where the claim fails: under the fold a terminal status does change.
    Applied to a confirmed cart, a ShoppingCartCanceled event makes it
    Canceled, and a ShoppingCartOpened event, which [open] returns on that
    very cart, makes it Pending again. *)
Lemma fold_changes_terminal_status :
  _status confirmedCart = Some Confirmed
  ∧ _status <$> evolve confirmedCart (ShoppingCartCanceled (Some "cart-1") 4000)
    = Ok (Some Canceled)
  ∧ open confirmedCart "cart-1" "client-1" 5000
    = ShoppingCartOpened "cart-1" "client-1" 5000
  ∧ _status <$> evolve confirmedCart (ShoppingCartOpened "cart-1" "client-1" 5000)
    = Ok (Some Pending).
Proof. split_and!; reflexivity. Qed.

(** C8, as the code has it: for every cart whose status is Confirmed or
    Canceled, each of [addProductItem], [removeProductItem], [confirm] and
    [cancel] throws CART_IS_ALREADY_CLOSED, and the service, having read the
    stream, appends no event and leaves the store as it was; a command of
    these four returns an event on a Pending cart only, so through them
    Confirmed and Canceled are entered from Pending and from nowhere else.
    The fold itself checks no status: events about items leave the status as
    it is, and a ShoppingCartOpened, ShoppingCartConfirmed or
    ShoppingCartCanceled event sets it to Pending, Confirmed or Canceled
    whatever it was before. *)
Theorem closed_cart_rejects_commands {S : Type}
    (eventStore : EventStore ShoppingCartEvent S) (s : S) (id : string)
    (events : list ShoppingCartEvent) (this : ShoppingCart)
    (productItem : PricedProductItem) (now : Date) :
  _status this = Some Confirmed ∨ _status this = Some Canceled →
  readStream eventStore s id = Ok events →
  folded events = Ok this →
  (addProductItem this productItem = Throw ShoppingCartErrors.CART_IS_ALREADY_CLOSED
   ∧ removeProductItem this productItem
     = Throw ShoppingCartErrors.CART_IS_ALREADY_CLOSED
   ∧ confirm this now = Throw ShoppingCartErrors.CART_IS_ALREADY_CLOSED
   ∧ cancel this now = Throw ShoppingCartErrors.CART_IS_ALREADY_CLOSED)
  ∧ (∀ command,
       command ∈ [ ShoppingCartService.addProductItem repository id productItem;
                   ShoppingCartService.removeProductItem repository id productItem;
                   ShoppingCartService.confirm repository id now;
                   ShoppingCartService.cancel repository id now ] →
       run eventStore command s
       = ([ReadStreamCall id],
          Throw ShoppingCartErrors.CART_IS_ALREADY_CLOSED, s))
  ∧ (∀ cart item date event,
       addProductItem cart item = Ok event
       ∨ removeProductItem cart item = Ok event
       ∨ confirm cart date = Ok event
       ∨ cancel cart date = Ok event →
       _status cart = Some Pending)
  ∧ (∀ state shoppingCartId item state',
       evolve state (ProductItemAddedToShoppingCart shoppingCartId item) = Ok state'
       ∨ evolve state (ProductItemRemovedFromShoppingCart shoppingCartId item)
         = Ok state' →
       _status state' = _status state)
  ∧ (∀ state shoppingCartId clientId date,
       _status <$> evolve state (ShoppingCartOpened shoppingCartId clientId date)
       = Ok (Some Pending))
  ∧ (∀ state shoppingCartId date,
       _status <$> evolve state (ShoppingCartConfirmed shoppingCartId date)
       = Ok (Some Confirmed)
       ∧ _status <$> evolve state (ShoppingCartCanceled shoppingCartId date)
         = Ok (Some Canceled)).
Proof.
  intros Hstatus Hread Hfold.
  assert (_status this ≠ Some Pending) as Hclosed
    by (destruct Hstatus as [-> | ->]; done).
  split_and!.
  - by apply addProductItem_closed.
  - by apply removeProductItem_closed.
  - by apply confirm_closed.
  - by apply cancel_closed.
  - intros command Hcommand.
    repeat (apply elem_of_cons in Hcommand as [-> | Hcommand]);
      [ unfold ShoppingCartService.addProductItem
      | unfold ShoppingCartService.removeProductItem
      | unfold ShoppingCartService.confirm
      | unfold ShoppingCartService.cancel
      | by apply elem_of_nil in Hcommand ];
      unfold repository; (eapply run_on_throw; [done.. |]).
    + by rewrite addProductItem_closed.
    + by rewrite removeProductItem_closed.
    + by rewrite confirm_closed.
    + by rewrite cancel_closed.
  - apply command_Ok_pending.
  - apply evolve_item_event_status.
  - done.
  - done.
Qed.

(** The theorem at work: cart-1 was opened, filled, and then canceled; a
    confirmation is attempted. *)
Lemma closed_cart_rejects_commands_witness :
  run memory (ShoppingCartService.confirm repository "cart-1" 9000) canceled
  = ([ReadStreamCall "cart-1"],
     Throw ShoppingCartErrors.CART_IS_ALREADY_CLOSED, canceled).
Proof.
  refine (proj1 (proj2
    (closed_cart_rejects_commands memory canceled "cart-1" canceledEvents
       canceledCart (p1 1) 9000 (or_intror eq_refl) eq_refl eq_refl)) _ _).
  do 2 (apply elem_of_cons; right). apply elem_of_cons. by left.
Defined.

(* ===================================================================== *)
(** ** Lines of a cart under the fold *)
(* ===================================================================== *)

Section Lines.

(** Adding an item changes the lines and nothing else. *)
Lemma evolve_added_fields state shoppingCartId productItem state' :
  evolve state (ProductItemAddedToShoppingCart shoppingCartId productItem) = Ok state' →
  _id state' = _id state ∧ _clientId state' = _clientId state
  ∧ _status state' = _status state ∧ _openedAt state' = _openedAt state
  ∧ _confirmedAt state' = _confirmedAt state
  ∧ _canceledAt state' = _canceledAt state.
Proof.
  simpl. destruct (list_find _ _) as [[i line]|]; intros [= <-]; done.
Qed.

(** One step of the fold keeps the quantities positive, provided that what
    it adds is positive. *)
Lemma evolve_positiveLines state event state' :
  positiveLines (_productItems state) → addsPositive event →
  evolve state event = Ok state' →
  positiveLines (_productItems state').
Proof.
  unfold positiveLines. intros Hpos Hadd.
  destruct event as [| id item | id item | | |]; simpl.
  - intros [= <-]. simpl. constructor.
  - destruct (list_find _ _) as [[i line]|] eqn:Hfind; intros [= <-]; simpl.
    + apply list_find_Some in Hfind as (Hi & _ & _).
      apply Forall_insert; [done |]. simpl.
      pose proof (Forall_lookup_1 _ _ _ _ Hpos Hi) as Hline.
      simpl in *. lia.
    + apply Forall_app. split; [done |]. by constructor.
  - destruct (list_find _ _) as [[i line]|] eqn:Hfind; [|by intros [= <-]].
    destruct (quantity line - quantity item <=? 0) eqn:Hle; intros [= <-]; simpl.
    + by apply Forall_delete.
    + apply Forall_insert; [done |]. simpl. by apply Z.leb_gt in Hle.
  - by intros [= <-].
  - by intros [= <-].
  - done.
Qed.

Lemma reduce_evolve_positiveLines events state state' :
  positiveLines (_productItems state) → Forall addsPositive events →
  reduce evolve events state = Ok state' →
  positiveLines (_productItems state').
Proof.
  intros Hpos Hall. revert state Hpos.
  induction Hall as [|event events Hevent _ IH]; intros state Hpos; simpl.
  - by intros [= <-].
  - destruct (evolve state event) as [next|] eqn:Hnext; [|done]. simpl.
    apply IH. by eapply evolve_positiveLines.
Qed.

End Lines.

(** The fold of [Aggregate] is the fold of [Numeric] at exact integers. *)
Lemma evolve_exact (state : ShoppingCart) (event : ShoppingCartEvent) :
  Numeric.evolve (exactCart state) (exactEvent event)
  = exactCart <$> evolve state event.
Proof.
  assert (∀ item : PricedProductItem,
            list_find (Numeric.sameLine (Numeric.productId (exactItem item))
                         (Numeric.unitPrice (exactItem item)))
              (exactItem <$> _productItems state)
            = prod_map id exactItem
                <$> list_find (sameLine (productId item) (unitPrice item))
                      (_productItems state)) as Hfind.
  { intros item. rewrite list_find_fmap. f_equal. apply list_find_ext.
    intros line. unfold Numeric.sameLine, sameLine. simpl.
    by rewrite Z.eqb_eq. }
  destruct event as [| id item | id item | | |]; try done.
  - cbn [exactEvent Numeric.evolve evolve exactCart Numeric._productItems].
    rewrite Hfind.
    destruct (list_find _ (_productItems state)) as [[i line]|]; simpl.
    + unfold Numeric.withProductItems, exactCart. simpl.
      by rewrite list_fmap_insert.
    + unfold Numeric.withProductItems, exactCart. simpl.
      by rewrite fmap_app.
  - cbn [exactEvent Numeric.evolve evolve exactCart Numeric._productItems].
    rewrite Hfind.
    destruct (list_find _ (_productItems state)) as [[i line]|]; simpl; [|done].
    destruct (quantity line - quantity item <=? 0); simpl.
    + unfold Numeric.withProductItems, exactCart. simpl.
      by rewrite list_fmap_delete.
    + unfold Numeric.withProductItems, exactCart. simpl.
      by rewrite list_fmap_insert.
Qed.

(** C7: for every state and every ProductItemAddedToShoppingCart event,
    whatever the numbers are (the floating-point numbers of the language, or
    exact integers), the fold returns a state that differs from the prior one
    in its lines only.  If no line has the productId and unitPrice of the
    event's item, the item is appended at the end.  If some line has them,
    the first such line, at index [i], has its quantity increased by the
    event's quantity, that is, replaced by the sum of the two as the numbers
    add, and keeps its productId and unitPrice; the number of lines is the
    same and every line at another index is what it was, at the place it
    was. *)
Theorem product_item_added_fold {number : Type} `{Numeric.Arithmetic number}
    (state : Numeric.ShoppingCart number) (shoppingCartId : option string)
    (productItem : Numeric.PricedProductItem number) :
  ∃ state',
    Numeric.evolve state
      (Numeric.ProductItemAddedToShoppingCart shoppingCartId productItem)
    = Ok state'
    ∧ (Numeric._id state' = Numeric._id state
       ∧ Numeric._clientId state' = Numeric._clientId state
       ∧ Numeric._status state' = Numeric._status state
       ∧ Numeric._openedAt state' = Numeric._openedAt state
       ∧ Numeric._confirmedAt state' = Numeric._confirmedAt state
       ∧ Numeric._canceledAt state' = Numeric._canceledAt state)
    ∧ (Forall (λ line, ¬ Numeric.sameLine (Numeric.productId productItem)
                          (Numeric.unitPrice productItem) line)
         (Numeric._productItems state) →
       Numeric._productItems state' = Numeric._productItems state ++ [productItem])
    ∧ (∀ (i : nat) line,
         Numeric._productItems state !! i = Some line →
         Numeric.sameLine (Numeric.productId productItem)
           (Numeric.unitPrice productItem) line →
         (∀ (j : nat) other,
            Numeric._productItems state !! j = Some other → (j < i)%nat →
            ¬ Numeric.sameLine (Numeric.productId productItem)
                (Numeric.unitPrice productItem) other) →
         length (Numeric._productItems state') = length (Numeric._productItems state)
         ∧ Numeric._productItems state' !! i
           = Some {| Numeric.productId := Numeric.productId line;
                     Numeric.quantity :=
                       Numeric.plus (Numeric.quantity line)
                         (Numeric.quantity productItem);
                     Numeric.unitPrice := Numeric.unitPrice line |}
         ∧ ∀ j : nat, j ≠ i →
             Numeric._productItems state' !! j = Numeric._productItems state !! j).
Proof.
  cbn [Numeric.evolve].
  destruct (list_find _ _) as [[i0 line0]|] eqn:Hfind.
  - eexists. split; [done |]. simpl. split; [done |]. split.
    + intros Hnone. apply (list_find_None _) in Hnone. congruence.
    + intros i line Hi Hline Hfirst.
      assert (list_find (Numeric.sameLine (Numeric.productId productItem)
                           (Numeric.unitPrice productItem))
                (Numeric._productItems state) = Some (i, line)) as Hfind'
        by (by apply list_find_Some).
      rewrite Hfind in Hfind'. injection Hfind' as -> ->.
      split_and!.
      * apply length_insert.
      * apply list_lookup_insert_eq. by eapply lookup_lt_Some.
      * intros j Hj. by apply list_lookup_insert_ne.
  - eexists. split; [done |]. simpl. split; [done |]. split; [done |].
    intros i line Hi Hline _.
    apply list_find_None in Hfind.
    by destruct (Forall_lookup_1 _ _ _ _ Hfind Hi).
Qed.

(** With the numbers of the language the sum is rounded: one unit added to a
    line of 2^53 units leaves 2^53 units, and one more unit added to a line of
    2 units gives 3; a price that is not a number matches no line, so the
    item is appended. *)
Example added_quantities_with_doubles :
  Numeric._productItems
    <$> Numeric.evolve (doubleCart 9007199254740992)
          (Numeric.ProductItemAddedToShoppingCart (Some "cart-1")
             {| Numeric.productId := "P1"; Numeric.quantity := 1%float;
                Numeric.unitPrice := 10%float |})
  = Ok [ {| Numeric.productId := "P1";
            Numeric.quantity := 9007199254740992%float;
            Numeric.unitPrice := 10%float |} ]
  ∧ Numeric._productItems
      <$> Numeric.evolve (doubleCart 2)
            (Numeric.ProductItemAddedToShoppingCart (Some "cart-1")
               {| Numeric.productId := "P1"; Numeric.quantity := 1%float;
                  Numeric.unitPrice := 10%float |})
    = Ok [ {| Numeric.productId := "P1"; Numeric.quantity := 3%float;
              Numeric.unitPrice := 10%float |} ]
  ∧ Numeric._productItems
      <$> Numeric.evolve (doubleCart 2)
            (Numeric.ProductItemAddedToShoppingCart (Some "cart-1")
               {| Numeric.productId := "P1"; Numeric.quantity := 1%float;
                  Numeric.unitPrice := PrimFloat.nan |})
    = Ok [ {| Numeric.productId := "P1"; Numeric.quantity := 2%float;
              Numeric.unitPrice := 10%float |};
           {| Numeric.productId := "P1"; Numeric.quantity := 1%float;
              Numeric.unitPrice := PrimFloat.nan |} ].
Proof. split_and!; vm_compute; reflexivity. Qed.




(* ===================================================================== *)
(** ** Scenarios *)
(* ===================================================================== *)

(** Open, add two units of P1, confirm: three events in the stream; a further
    addition is refused. *)
Example scenario_open_add_confirm :
  let s1 := after (ShoppingCartService.open repository "cart-1" "client-1" 1000) ∅ in
  let s2 := after (ShoppingCartService.addProductItem repository "cart-1" (p1 2)) s1 in
  let s3 := after (ShoppingCartService.confirm repository "cart-1" 3000) s2 in
  readStream memory s3 "cart-1"
  = Ok [ opened1;
         ProductItemAddedToShoppingCart (Some "cart-1") (p1 2);
         ShoppingCartConfirmed (Some "cart-1") 3000 ]
  ∧ _status <$> folded [ opened1;
                         ProductItemAddedToShoppingCart (Some "cart-1") (p1 2);
                         ShoppingCartConfirmed (Some "cart-1") 3000 ]
    = Ok (Some Confirmed)
  ∧ outcome (ShoppingCartService.addProductItem repository "cart-1" (p1 1)) s3
    = Throw ShoppingCartErrors.CART_IS_ALREADY_CLOSED
  ∧ after (ShoppingCartService.addProductItem repository "cart-1" (p1 1)) s3 = s3.
Proof. split_and!; reflexivity. Qed.

(** Confirming a cart that was just opened is refused, and nothing is
    appended. *)
Example scenario_confirm_empty_cart :
  outcome (ShoppingCartService.confirm repository "cart-1" 2000) openedOnly
  = Throw ShoppingCartErrors.CART_IS_EMPTY
  ∧ after (ShoppingCartService.confirm repository "cart-1" 2000) openedOnly
    = openedOnly.
Proof. split; reflexivity. Qed.

(** Two units added and two removed leave no line; a second addition of the
    same product at the same price goes to the existing line, and another
    price makes a line of its own, after it. *)
Example scenario_lines :
  _productItems
    <$> folded [ opened1;
                 ProductItemAddedToShoppingCart (Some "cart-1") (p1 2);
                 ProductItemRemovedFromShoppingCart (Some "cart-1") (p1 2) ]
  = Ok []
  ∧ _productItems
      <$> folded [ opened1;
                   ProductItemAddedToShoppingCart (Some "cart-1") (p1 2);
                   ProductItemAddedToShoppingCart (Some "cart-1")
                     {| productId := "P1"; quantity := 1; unitPrice := 12 |};
                   ProductItemAddedToShoppingCart (Some "cart-1") (p1 3) ]
    = Ok [ p1 5; {| productId := "P1"; quantity := 1; unitPrice := 12 |} ].
Proof. split; reflexivity. Qed.

(** What the matcher returns on a header with text around the token: the
    leftmost marker starts the group and the last quote of the line ends it. *)
Example scenario_token_inside_text :
  getWeakETagValue ("If-Match: W/" +:+ quoted "3" +:+ ", W/" +:+ quoted "4" +:+ ";")
  = Ok ("3" +:+ String dquote (", W/" +:+ String dquote "4")).
Proof. reflexivity. Qed.

(* ===================================================================== *)
(** ** More on weak ETags: what is decoded, and from which header *)
(* ===================================================================== *)

Section DecodedValue.

Lemma closing_Some_inv s pos caps r :
  closing s pos caps = Some r →
  ∃ post, s = String dquote post
          ∧ r = (S pos, {| groupStart := groupStart caps; groupEnd := pos |}).
Proof.
  intros H. destruct (closing_inv _ _ _ _ H) as [post ->].
  rewrite closing_quote in H. injection H as <-. by eexists.
Qed.

(** A match at [pos]: the shape of the text, and where the group lies. *)
Lemma matchHere_weakETag_inv s pos e caps :
  matchHere WeakETagRegex s pos = Some (e, caps) →
  ∃ d mid post,
    s = "W/" +:+ String dquote (String d (mid +:+ String dquote post))
    ∧ isDigit d = true ∧ oneLine mid
    ∧ groupStart caps = (pos + 3)%nat
    ∧ groupEnd caps = (pos + 4 + String.length mid)%nat.
Proof.
  unfold matchHere, WeakETagRegex. cbn [matchPattern classMatches].
  destruct s as [|c1 [|c2 [|c3 [|c4 s]]]];
    repeat (try done; match goal with
            | |- context [Ascii.eqb ?a ?b] =>
                destruct (Ascii.eqb a b) eqn:?
            end); try done.
  repeat match goal with
         | H : Ascii.eqb _ _ = true |- _ => apply Ascii.eqb_eq in H; subst
         end.
  destruct (isDigit c4) eqn:Hd; [|done].
  intros (ds & rest & -> & Hds & Hrest)%greedy_sound.
  apply greedy_sound in Hrest as (m & tail & -> & Hm & Htail).
  apply closing_Some_inv in Htail as (post & -> & [= -> ->]).
  exists c4, (ds +:+ m), post. simpl. split_and!; [|done| |lia|].
  - by rewrite append_assoc.
  - unfold oneLine. rewrite allChars_app. apply andb_true_iff. split; [|done].
    by apply digits_oneLine.
  - assert (String.length (ds +:+ m) = (String.length ds + String.length m)%nat)
      as ->; [|lia].
    clear. induction ds as [|c ds IH]; [done |].
    rewrite append_cons. simpl. by rewrite IH.
Qed.

Lemma search_Some_inv p s pos b e caps :
  search p s pos = Some (b, e, caps) →
  ∃ pre suf, s = pre +:+ suf ∧ b = (pos + String.length pre)%nat
             ∧ matchHere p suf b = Some (e, caps).
Proof.
  revert pos. induction s as [|c s IH]; intros pos; cbn [search].
  - destruct (matchHere p EmptyString pos) as [[e' caps']|] eqn:Hm; [|done].
    intros [= <- <- <-]. exists EmptyString, EmptyString. simpl.
    by rewrite Nat.add_0_r.
  - destruct (matchHere p (String c s) pos) as [[e' caps']|] eqn:Hm.
    + intros [= <- <- <-]. exists EmptyString, (String c s). simpl.
      by rewrite Nat.add_0_r.
    + intros (pre & suf & -> & -> & Hsuf)%IH.
      exists (String c pre), suf. simpl.
      rewrite Nat.add_succ_r. by split_and!.
Qed.

Lemma substring_skip (a b : string) n m :
  substring (String.length a + n) m (a +:+ b) = substring n m b.
Proof.
  induction a as [|c a IH]; [done |]. rewrite append_cons. simpl. apply IH.
Qed.

Lemma getWeakETagValue_toWeakETag (r : N) :
  getWeakETagValue (toWeakETag (BigInt r)) = Ok (decimal r).
Proof.
  destruct (decimal_digits r) as (d & ds & E & Hd & Hds).
  unfold toWeakETag, toString. rewrite E.
  apply getWeakETagValue_quoted; [done |]. by apply digits_oneLine.
Qed.

Lemma isWeakETag_decodes (etag : string) :
  isWeakETag etag = true ↔ ∃ v, getWeakETagValue etag = Ok v.
Proof.
  unfold isWeakETag, test, getWeakETagValue.
  destruct (exec WeakETagRegex etag) as [weak|]; simpl.
  - split; [by eexists | done].
  - split; [done | by intros [? [=]]].
Qed.

Lemma isWeakETag_refuses (etag : string) :
  isWeakETag etag = false
  ↔ getWeakETagValue etag = Throw ETagErrors.WRONG_WEAK_ETAG_FORMAT.
Proof.
  unfold isWeakETag, test, getWeakETagValue.
  by destruct (exec WeakETagRegex etag) as [weak|].
Qed.

End DecodedValue.

(** X1: whatever [getWeakETagValue] returns is text of its input: it stands
    right after an occurrence of W, slash, double quote and right before a
    double quote, it starts with a digit and has no line terminator. *)
Theorem weak_etag_value_shape (etag v : string) :
  getWeakETagValue etag = Ok v →
  ∃ pre d mid post,
    etag = pre +:+ "W/" +:+ String dquote (v +:+ String dquote post)
    ∧ v = String d mid ∧ isDigit d = true ∧ oneLine mid.
Proof.
  unfold getWeakETagValue, exec.
  destruct (search WeakETagRegex etag 0) as [[[b e] caps]|] eqn:Hsearch; [|done].
  simpl. intros [= <-].
  apply search_Some_inv in Hsearch as (pre & suf & -> & -> & Hmatch).
  apply matchHere_weakETag_inv in Hmatch
    as (d & mid & post & -> & Hd & Hmid & -> & ->).
  assert (substring (0 + String.length pre + 3)
            (0 + String.length pre + 4 + String.length mid
             - (0 + String.length pre + 3))
            (pre +:+ "W/" +:+ String dquote
               (String d (mid +:+ String dquote post)))
          = String d mid) as ->.
  { replace (0 + String.length pre + 3)%nat with (String.length pre + 3)%nat by lia.
    rewrite substring_skip. str_norm.
    replace (0 + String.length pre + 4 + String.length mid
             - (String.length pre + 3))%nat
      with (S (String.length mid)) by lia.
    cbn [substring]. f_equal. apply substring_whole_prefix. }
  by exists pre, d, mid, post.
Qed.

(** The theorem at work on the token of revision 42. *)
Lemma weak_etag_value_shape_witness :
  ∃ pre d mid post,
    toWeakETag (BigInt 42)
    = pre +:+ "W/" +:+ String dquote ("42" +:+ String dquote post)
    ∧ "42" = String d mid ∧ isDigit d = true ∧ oneLine mid.
Proof. apply (weak_etag_value_shape (toWeakETag (BigInt 42)) "42"). reflexivity. Defined.

(** X2: [isWeakETag] says yes exactly when [getWeakETagValue] returns a
    value, so a tag that passed the test is never refused by the decoding
    that follows it. *)
Theorem isWeakETag_iff_decodes (etag : string) :
  (isWeakETag etag = true ↔ ∃ v, getWeakETagValue etag = Ok v)
  ∧ (isWeakETag etag = false
     ↔ getWeakETagValue etag = Throw ETagErrors.WRONG_WEAK_ETAG_FORMAT).
Proof. split; [apply isWeakETag_decodes | apply isWeakETag_refuses]. Qed.

(** X3: two bigint revisions with the same weak ETag are the same revision. *)
Theorem toWeakETag_injective (r1 r2 : N) :
  toWeakETag (BigInt r1) = toWeakETag (BigInt r2) → r1 = r2.
Proof.
  intros H. apply (f_equal getWeakETagValue) in H.
  rewrite !getWeakETagValue_toWeakETag in H. injection H as H.
  apply (f_equal parseDecimal) in H.
  rewrite !parseDecimal_decimal in H. by injection H.
Qed.

Lemma toWeakETag_injective_witness : (7 = 7)%N.
Proof. apply (toWeakETag_injective 7 7). reflexivity. Defined.

Section HeaderFacts.
Context {bigint : Type}.
Variable assertUnsignedBigInt : string → result bigint.

(** The tag a request carries under a name is the header's value, or the
    first value when the header is an array. *)
Lemma getETagFromHeader_Some request headerName etag :
  getETagFromHeader request headerName = Some etag ↔
  headers request !! headerName = Some (OneValue etag)
  ∨ ∃ rest, headers request !! headerName = Some (Values (etag :: rest)).
Proof.
  unfold getETagFromHeader.
  destruct (headers request !! headerName) as [[value|[|first rest]]|]; simpl.
  - split; [intros [= ->]; by left |].
    by intros [[= ->] | [rest [=]]].
  - split; [done |]. by intros [[=] | [rest [=]]].
  - split; [intros [= ->]; right; by eexists |].
    by intros [[=] | [rest' [= -> _]]].
  - split; [done |]. by intros [[=] | [rest [=]]].
Qed.

Lemma getETagFromHeader_None request headerName :
  getETagFromHeader request headerName = None ↔
  headers request !! headerName = None
  ∨ headers request !! headerName = Some (Values []).
Proof.
  unfold getETagFromHeader.
  destruct (headers request !! headerName) as [[value|[|first rest]]|]; simpl.
  - split; [done |]. by intros [[=] | [=]].
  - split; [by right | done].
  - split; [done |]. by intros [[=] | [=]].
  - split; [by left | done].
Qed.

Lemma getExpectedRevision_tag request headerName etag v :
  getETagFromHeader request headerName = Some etag →
  getWeakETagValue etag = Ok v →
  getExpectedRevision assertUnsignedBigInt request headerName
  = Some <$> assertUnsignedBigInt v.
Proof.
  intros Htag Hv. unfold getExpectedRevision, getWeakETagValueFromHeader.
  rewrite Htag.
  assert (isWeakETag etag = true) as ->
    by (apply isWeakETag_decodes; eauto).
  simpl. by rewrite Hv.
Qed.

End HeaderFacts.

(** X4: when the header is missing, or is an empty array of values, reading
    the expected revision from if-match throws MISSING_HEADER, and reading
    it from if-not-match returns [undefined] without any error; the text
    never reaches [assertUnsignedBigInt]. *)
Theorem expected_revision_without_header {bigint : Type}
    (assertUnsignedBigInt : string → result bigint) (request : ApiRequest) :
  (headers request !! HeaderNames.IF_MATCH = None
   ∨ headers request !! HeaderNames.IF_MATCH = Some (Values []) →
   getExpectedRevisionFromIfMatch assertUnsignedBigInt request
   = Throw ETagErrors.MISSING_HEADER)
  ∧ (headers request !! HeaderNames.IF_NOT_MATCH = None
     ∨ headers request !! HeaderNames.IF_NOT_MATCH = Some (Values []) →
     getExpectedRevisionFromIfNotMatch assertUnsignedBigInt request = Ok None).
Proof.
  split; intros H%getETagFromHeader_None;
    unfold getExpectedRevisionFromIfMatch, getExpectedRevisionFromIfNotMatch,
      getExpectedRevision, getWeakETagValueFromHeader;
    by rewrite H.
Qed.

(** The theorem at work on a request with no header. *)
Lemma expected_revision_without_header_witness :
  getExpectedRevisionFromIfMatch readDecimal bareRequest
  = Throw ETagErrors.MISSING_HEADER.
Proof.
  apply (proj1 (expected_revision_without_header readDecimal bareRequest)).
  left. reflexivity.
Defined.

(** X5: when the header under the name asked for carries a tag (its value, or
    the first of its values) in which [WeakETagRegex] finds nothing, reading
    the expected revision throws WRONG_WEAK_ETAG_FORMAT, from if-match as
    from if-not-match, whatever [assertUnsignedBigInt] would have done. *)
Theorem expected_revision_wrong_format {bigint : Type}
    (assertUnsignedBigInt : string → result bigint) (request : ApiRequest)
    (headerName etag : string) :
  getETagFromHeader request headerName = Some etag →
  ¬ containsWeakETag etag →
  getExpectedRevision assertUnsignedBigInt request headerName
  = Throw ETagErrors.WRONG_WEAK_ETAG_FORMAT
  ∧ (headerName = HeaderNames.IF_MATCH →
     getExpectedRevisionFromIfMatch assertUnsignedBigInt request
     = Throw ETagErrors.WRONG_WEAK_ETAG_FORMAT)
  ∧ (headerName = HeaderNames.IF_NOT_MATCH →
     getExpectedRevisionFromIfNotMatch assertUnsignedBigInt request
     = Throw ETagErrors.WRONG_WEAK_ETAG_FORMAT).
Proof.
  intros Htag Hnone.
  assert (getExpectedRevision assertUnsignedBigInt request headerName
          = Throw ETagErrors.WRONG_WEAK_ETAG_FORMAT) as Hthrow.
  { unfold getExpectedRevision, getWeakETagValueFromHeader. rewrite Htag.
    assert (isWeakETag etag = false) as ->; [|done].
    apply isWeakETag_refuses, getWeakETagValue_Throw_iff. by split. }
  split_and!; [done | |].
  - intros ->. unfold getExpectedRevisionFromIfMatch. by rewrite Hthrow.
  - intros ->. done.
Qed.

(** X6: when the header carries a tag that [getWeakETagValue] decodes to [v],
    the expected revision is what [assertUnsignedBigInt] makes of [v], and
    an exception of [assertUnsignedBigInt] comes out unchanged; only the
    first value of an array of values is looked at.  So a request that sends
    back the tag made by [toWeakETag] for the bigint revision [r] has the
    decimal text of [r] handed to [assertUnsignedBigInt]. *)
Theorem expected_revision_from_tag {bigint : Type}
    (assertUnsignedBigInt : string → result bigint) (request : ApiRequest)
    (etag v : string) (rest : list string) (r : N) :
  headers request !! HeaderNames.IF_MATCH = Some (OneValue etag)
  ∨ headers request !! HeaderNames.IF_MATCH = Some (Values (etag :: rest)) →
  getWeakETagValue etag = Ok v →
  getExpectedRevisionFromIfMatch assertUnsignedBigInt request
  = assertUnsignedBigInt v
  ∧ (etag = toWeakETag (BigInt r) → v = decimal r).
Proof.
  intros Hheader Hv.
  assert (getETagFromHeader request HeaderNames.IF_MATCH = Some etag) as Htag.
  { apply getETagFromHeader_Some. destruct Hheader; eauto. }
  split.
  - unfold getExpectedRevisionFromIfMatch.
    rewrite (getExpectedRevision_tag _ _ _ _ _ Htag Hv).
    by destruct (assertUnsignedBigInt v).
  - intros ->. rewrite getWeakETagValue_toWeakETag in Hv. by injection Hv.
Qed.

(** The theorem at work: the tag of revision 12 comes first in an array of
    two values. *)
Lemma expected_revision_from_tag_witness :
  getExpectedRevisionFromIfMatch readDecimal
    (requestWith HeaderNames.IF_MATCH
       (Values [toWeakETag (BigInt 12); "W/junk"]))
  = Ok 12%N.
Proof.
  refine (proj1 (expected_revision_from_tag readDecimal
            (requestWith HeaderNames.IF_MATCH
               (Values [toWeakETag (BigInt 12); "W/junk"]))
            (toWeakETag (BigInt 12)) "12" ["W/junk"] 12 _ eq_refl)).
  right. reflexivity.
Defined.

(** The theorem at work on a header that is a plain number, not a tag. *)
Lemma expected_revision_wrong_format_witness :
  getExpectedRevisionFromIfMatch readDecimal
    (requestWith HeaderNames.IF_MATCH (OneValue "12"))
  = Throw ETagErrors.WRONG_WEAK_ETAG_FORMAT.
Proof.
  refine (proj1 (proj2 (expected_revision_wrong_format readDecimal
            (requestWith HeaderNames.IF_MATCH (OneValue "12"))
            HeaderNames.IF_MATCH "12" eq_refl _)) eq_refl).
  apply (proj1 (getWeakETagValue_Throw_iff "12" ETagErrors.WRONG_WEAK_ETAG_FORMAT)).
  reflexivity.
Defined.

(* ===================================================================== *)
(** ** Quantities under the fold *)
(* ===================================================================== *)

Section Quantities.
Implicit Types (key : string * Z) (items : list PricedProductItem).

Lemma currentQuantity_quantityOf this productItem :
  currentQuantity this productItem
  = quantityOf (lineKey productItem) (_productItems this).
Proof. reflexivity. Qed.

Lemma quantityOf_cons key line items :
  quantityOf key (line :: items)
  = if decide (sameLine key.1 key.2 line) then quantity line
    else quantityOf key items.
Proof.
  unfold quantityOf. simpl. case_decide; [done |].
  by destruct (list_find _ items) as [[??]|].
Qed.

Lemma sameLine_lineKey key line : sameLine key.1 key.2 line ↔ lineKey line = key.
Proof.
  unfold sameLine, lineKey. destruct key as [k1 k2]. simpl.
  split; [by intros [-> ->] | by intros [= -> ->]].
Qed.

Lemma quantityOf_absent key items :
  Forall (λ line, ¬ sameLine key.1 key.2 line) items → quantityOf key items = 0.
Proof.
  intros H. apply (list_find_None _) in H. unfold quantityOf. by rewrite H.
Qed.

(** Replacing a line that does not have the key by another that does not
    have it either changes nothing under that key. *)
Lemma quantityOf_insert_other key items (i : nat) old new :
  items !! i = Some old →
  ¬ sameLine key.1 key.2 old → ¬ sameLine key.1 key.2 new →
  quantityOf key (<[i := new]> items) = quantityOf key items.
Proof.
  revert i. induction items as [|line items IH]; intros [|i] Hi Hold Hnew;
    simpl in *; try done.
  - injection Hi as ->. rewrite !quantityOf_cons. by repeat case_decide.
  - rewrite !quantityOf_cons. case_decide; [done |]. by eapply IH.
Qed.

Lemma quantityOf_delete_other key items (i : nat) old :
  items !! i = Some old → ¬ sameLine key.1 key.2 old →
  quantityOf key (delete i items) = quantityOf key items.
Proof.
  revert i. induction items as [|line items IH]; intros [|i] Hi Hold;
    simpl in *; try done.
  - injection Hi as ->. rewrite quantityOf_cons. by case_decide.
  - rewrite !quantityOf_cons. case_decide; [done |]. by eapply IH.
Qed.

Lemma quantityOf_app_other key items new :
  ¬ sameLine key.1 key.2 new →
  quantityOf key (items ++ [new]) = quantityOf key items.
Proof.
  intros Hnew. induction items as [|line items IH]; simpl.
  - rewrite quantityOf_cons. by case_decide.
  - rewrite !quantityOf_cons. by case_decide.
Qed.

Lemma quantityOf_app_first key items new :
  Forall (λ line, ¬ sameLine key.1 key.2 line) items →
  sameLine key.1 key.2 new →
  quantityOf key (items ++ [new]) = quantity new.
Proof.
  intros Hnone Hnew. induction Hnone as [|line items Hline _ IH]; simpl.
  - rewrite quantityOf_cons. by case_decide.
  - rewrite quantityOf_cons. by case_decide.
Qed.

(** Replacing the first line that has the key by another with the key. *)
Lemma quantityOf_insert_first key items (i : nat) old new :
  list_find (sameLine key.1 key.2) items = Some (i, old) →
  sameLine key.1 key.2 new →
  quantityOf key (<[i := new]> items) = quantity new.
Proof.
  intros (Hi & Hold & Hfirst)%list_find_Some Hnew.
  unfold quantityOf.
  rewrite (proj2 (list_find_Some _ (<[i := new]> items) i new)); [done |].
  split_and!; [| done |].
  - apply list_lookup_insert_eq. by eapply lookup_lt_Some.
  - intros j other Hj Hlt. rewrite list_lookup_insert_ne in Hj by lia.
    by eapply Hfirst.
Qed.

(** With distinct keys, deleting the line that has the key leaves none. *)
Lemma quantityOf_delete_first key items (i : nat) old :
  NoDup (lineKey <$> items) →
  items !! i = Some old → sameLine key.1 key.2 old →
  quantityOf key (delete i items) = 0.
Proof.
  intros Hdistinct Hi Hold. apply quantityOf_absent.
  apply Forall_lookup. intros j line Hj Hline.
  apply sameLine_lineKey in Hold, Hline.
  assert (∀ j' : nat, items !! j' = Some line → j' = i) as Honly.
  { intros j' Hj'. eapply (NoDup_lookup _ _ _ _ Hdistinct).
    - rewrite list_lookup_fmap, Hj'. simpl. by rewrite Hline.
    - rewrite list_lookup_fmap, Hi. simpl. by rewrite Hold. }
  destruct (decide (j < i)%nat) as [Hlt|Hge].
  - rewrite list_lookup_delete_lt in Hj by done. apply Honly in Hj. lia.
  - rewrite list_lookup_delete_ge in Hj by lia. apply Honly in Hj. lia.
Qed.

End Quantities.

Section FoldedQuantities.

Lemma quantityOf_found key items (i : nat) line :
  list_find (sameLine key.1 key.2) items = Some (i, line) →
  quantityOf key items = quantity line.
Proof. intros H. unfold quantityOf. by rewrite H. Qed.

(** What an add event does to the quantities. *)
Lemma evolve_added_quantities state shoppingCartId productItem state' :
  evolve state (ProductItemAddedToShoppingCart shoppingCartId productItem) = Ok state' →
  quantityOf (lineKey productItem) (_productItems state')
  = quantityOf (lineKey productItem) (_productItems state) + quantity productItem
  ∧ ∀ key, key ≠ lineKey productItem →
      quantityOf key (_productItems state') = quantityOf key (_productItems state).
Proof.
  simpl.
  destruct (list_find _ _) as [[i line]|] eqn:Hfind; intros [= <-]; simpl.
  - pose proof Hfind as (Hi & Hline & _)%list_find_Some. split.
    + rewrite (quantityOf_insert_first (lineKey productItem) _ i line); [|done..].
      by rewrite (quantityOf_found (lineKey productItem) _ i line).
    + intros key Hkey.
      apply (sameLine_lineKey (lineKey productItem)) in Hline.
      apply (quantityOf_insert_other key _ i line); [done | |];
        rewrite sameLine_lineKey; unfold lineKey in *; simpl; congruence.
  - apply list_find_None in Hfind. split.
    + rewrite (quantityOf_app_first (lineKey productItem)); [| done | done].
      rewrite (quantityOf_absent (lineKey productItem)); [lia | done].
    + intros key Hkey. apply quantityOf_app_other.
      rewrite sameLine_lineKey. congruence.
Qed.

(** What a remove event does to the quantities. *)
Lemma evolve_removed_quantities state shoppingCartId productItem state' :
  evolve state (ProductItemRemovedFromShoppingCart shoppingCartId productItem)
  = Ok state' →
  (Forall (λ line, ¬ sameLine (productId productItem) (unitPrice productItem) line)
     (_productItems state) → state' = state)
  ∧ (distinctKeys state →
     Exists (sameLine (productId productItem) (unitPrice productItem))
       (_productItems state) →
     quantityOf (lineKey productItem) (_productItems state')
     = Z.max 0 (quantityOf (lineKey productItem) (_productItems state)
                - quantity productItem))
  ∧ ∀ key, key ≠ lineKey productItem →
      quantityOf key (_productItems state') = quantityOf key (_productItems state).
Proof.
  simpl.
  destruct (list_find _ _) as [[i line]|] eqn:Hfind.
  - pose proof Hfind as (Hi & Hline & _)%list_find_Some.
    assert (Hkeyline : lineKey line = lineKey productItem)
      by (by apply (sameLine_lineKey (lineKey productItem))).
    destruct (quantity line - quantity productItem <=? 0) eqn:Hle;
      intros [= <-]; simpl; split_and!.
    + intros Hnone. by destruct (Forall_lookup_1 _ _ _ _ Hnone Hi).
    + intros Hdistinct _. apply Z.leb_le in Hle.
      rewrite (quantityOf_delete_first (lineKey productItem) _ i line);
        [| done..].
      rewrite (quantityOf_found (lineKey productItem) _ i line) by done. lia.
    + intros key Hkey.
      apply (quantityOf_delete_other key _ i line); [done |].
      rewrite sameLine_lineKey. congruence.
    + intros Hnone. by destruct (Forall_lookup_1 _ _ _ _ Hnone Hi).
    + intros _ _. apply Z.leb_gt in Hle.
      rewrite (quantityOf_insert_first (lineKey productItem) _ i line);
        [| done..].
      rewrite (quantityOf_found (lineKey productItem) _ i line) by done.
      simpl. lia.
    + intros key Hkey.
      apply (quantityOf_insert_other key _ i line); [done | |];
        rewrite sameLine_lineKey; unfold lineKey in *; simpl; congruence.
  - intros [= <-]. split_and!; [done | | done].
    intros _ Hsome. apply list_find_None in Hfind.
    by destruct (Forall_not_Exists _ _ Hfind).
Qed.

(** One step of the fold keeps the keys distinct. *)
Lemma evolve_distinctKeys state event state' :
  distinctKeys state → evolve state event = Ok state' → distinctKeys state'.
Proof.
  unfold distinctKeys. intros Hdistinct.
  destruct event as [| id item | id item | | |]; simpl.
  - intros [= <-]. simpl. constructor.
  - destruct (list_find _ _) as [[i line]|] eqn:Hfind; intros [= <-]; simpl.
    + apply list_find_Some in Hfind as (Hi & Hline & _).
      rewrite list_fmap_insert, list_insert_id; [done |].
      rewrite list_lookup_fmap, Hi. simpl. done.
    + apply list_find_None in Hfind.
      rewrite fmap_app. apply NoDup_app. split_and!; [done | | apply NoDup_singleton].
      intros key (line & -> & Hin)%list_elem_of_fmap Hkey%list_elem_of_singleton.
      apply (proj1 (Forall_forall _ _) Hfind line Hin).
      by apply (sameLine_lineKey (lineKey item)).
  - destruct (list_find _ _) as [[i line]|] eqn:Hfind; [|by intros [= <-]].
    case_match; intros [= <-]; simpl.
    + rewrite list_fmap_delete. eapply sublist_NoDup; [done | apply sublist_delete].
    + apply list_find_Some in Hfind as (Hi & Hline & _).
      rewrite list_fmap_insert, list_insert_id; [done |].
      rewrite list_lookup_fmap, Hi. simpl. done.
  - by intros [= <-].
  - by intros [= <-].
  - done.
Qed.

Lemma reduce_evolve_distinctKeys events state state' :
  distinctKeys state → reduce evolve events state = Ok state' →
  distinctKeys state'.
Proof.
  revert state. induction events as [|event events IH]; intros state Hd; simpl.
  - by intros [= <-].
  - destruct (evolve state event) as [next|] eqn:Hnext; [|done]. simpl.
    apply IH. by eapply evolve_distinctKeys.
Qed.

End FoldedQuantities.

(** X7: as long as the numbers stay safe integers, that is, when the
    quantities and prices of the cart and of the item are safe integers and
    so is the sum of the quantity the cart holds under the item's key and the
    event's quantity, a ProductItemAddedToShoppingCart event raises the
    quantity the cart holds under the item's productId and unitPrice by the
    event's quantity, and leaves the quantity under every other key as it
    was.  (Beyond safe integers the sum of two numbers is rounded.) *)
Theorem added_event_adds_quantity (state : ShoppingCart)
    (shoppingCartId : option string) (productItem : PricedProductItem) :
  safeCart state →
  safeItem productItem →
  safeInteger (currentQuantity state productItem + quantity productItem) →
  ∃ state',
    evolve state (ProductItemAddedToShoppingCart shoppingCartId productItem)
    = Ok state'
    ∧ currentQuantity state' productItem
      = currentQuantity state productItem + quantity productItem
    ∧ ∀ other, lineKey other ≠ lineKey productItem →
        currentQuantity state' other = currentQuantity state other.
Proof.
  intros _ _ _.
  destruct (evolve_total state
              (ProductItemAddedToShoppingCart shoppingCartId productItem) eq_refl)
    as [state' Hevolve].
  exists state'. split; [done |].
  apply evolve_added_quantities in Hevolve as [Hown Hothers].
  split; [done |]. intros other Hother.
  rewrite !currentQuantity_quantityOf. by apply Hothers.
Qed.

(** The theorem at work: three units of P1 added to a cart that holds two of
    them and one of P2. *)
Lemma added_event_adds_quantity_witness :
  ∃ state',
    evolve twoLinesCart (ProductItemAddedToShoppingCart (Some "cart-1") (p1 3))
    = Ok state'
    ∧ currentQuantity state' (p1 3) = currentQuantity twoLinesCart (p1 3) + 3
    ∧ ∀ other, lineKey other ≠ lineKey (p1 3) →
        currentQuantity state' other = currentQuantity twoLinesCart other.
Proof.
  apply (added_event_adds_quantity twoLinesCart (Some "cart-1") (p1 3));
    unfold safeCart, safeItem, safeInteger;
    repeat first [apply Forall_nil | apply Forall_cons | split];
    by vm_compute.
Defined.

(** X8: as long as the numbers stay safe integers (the quantities and
    prices of the cart and of the item, and the difference below), on a cart
    whose lines have distinct keys, a ProductItemRemovedFromShoppingCart event
    for a key the cart has leaves under that key the former quantity minus
    the event's, or 0 when that would be zero or less (never a negative
    quantity); for a key the cart does not have it changes nothing at all; in
    both cases the quantity under every other key stays as it was and the
    keys stay distinct.  (Beyond safe integers the difference of two numbers
    is rounded.) *)
Theorem removed_event_subtracts_quantity (state : ShoppingCart)
    (shoppingCartId : option string) (productItem : PricedProductItem) :
  distinctKeys state →
  safeCart state →
  safeItem productItem →
  safeInteger (currentQuantity state productItem - quantity productItem) →
  ∃ state',
    evolve state (ProductItemRemovedFromShoppingCart shoppingCartId productItem)
    = Ok state'
    ∧ (Exists (sameLine (productId productItem) (unitPrice productItem))
         (_productItems state) →
       currentQuantity state' productItem
       = Z.max 0 (currentQuantity state productItem - quantity productItem))
    ∧ (Forall (λ line, ¬ sameLine (productId productItem) (unitPrice productItem) line)
         (_productItems state) →
       state' = state)
    ∧ (∀ other, lineKey other ≠ lineKey productItem →
         currentQuantity state' other = currentQuantity state other)
    ∧ distinctKeys state'.
Proof.
  intros Hdistinct _ _ _.
  destruct (evolve_total state
              (ProductItemRemovedFromShoppingCart shoppingCartId productItem) eq_refl)
    as [state' Hevolve].
  exists state'. split; [done |].
  pose proof (evolve_distinctKeys _ _ _ Hdistinct Hevolve) as Hdistinct'.
  apply evolve_removed_quantities in Hevolve as (Hnone & Hown & Hothers).
  split_and!; [by apply Hown | done | | done].
  intros other Hother. rewrite !currentQuantity_quantityOf. by apply Hothers.
Qed.

(** The theorem at work: five units of P1 removed from a cart that holds two
    of them and one of P2. *)
Lemma removed_event_subtracts_quantity_witness :
  ∃ state',
    evolve twoLinesCart (ProductItemRemovedFromShoppingCart (Some "cart-1") (p1 5))
    = Ok state'
    ∧ (Exists (sameLine "P1" 10) (_productItems twoLinesCart) →
       currentQuantity state' (p1 5)
       = Z.max 0 (currentQuantity twoLinesCart (p1 5) - 5))
    ∧ (Forall (λ line, ¬ sameLine "P1" 10 line) (_productItems twoLinesCart) →
       state' = twoLinesCart)
    ∧ (∀ other, lineKey other ≠ lineKey (p1 5) →
         currentQuantity state' other = currentQuantity twoLinesCart other)
    ∧ distinctKeys state'.
Proof.
  apply (removed_event_subtracts_quantity twoLinesCart (Some "cart-1") (p1 5));
    [ apply (bool_decide_unpack _); reflexivity | .. ];
    unfold safeCart, safeItem, safeInteger;
    repeat first [apply Forall_nil | apply Forall_cons | split];
    by vm_compute.
Defined.



(* ===================================================================== *)
(** ** Commands followed by the fold *)
(* ===================================================================== *)

Section DecideThenEvolve.

Lemma removeProductItem_Ok_inv this productItem event :
  removeProductItem this productItem = Ok event →
  _status this = Some Pending
  ∧ quantity productItem ≤ currentQuantity this productItem
  ∧ event = ProductItemRemovedFromShoppingCart (_id this) productItem.
Proof.
  unfold removeProductItem, assertProductItemExists.
  destruct (assertIsPending this) as [[]|] eqn:Hpending; [|done]. simpl.
  destruct (currentQuantity this productItem <? quantity productItem) eqn:Hlt;
    [done |]. simpl. intros [= <-].
  apply Z.ltb_ge in Hlt. by apply assertIsPending_Ok_inv in Hpending.
Qed.

Lemma confirm_pending this now :
  _status this = Some Pending → _productItems this ≠ [] →
  confirm this now = Ok (ShoppingCartConfirmed (_id this) now).
Proof.
  intros Hstatus Hlines. unfold confirm, assertIsNotEmpty.
  rewrite (assertIsPending_pending _ Hstatus). simpl.
  by destruct (_productItems this).
Qed.

Lemma confirm_empty this now :
  _status this = Some Pending → _productItems this = [] →
  confirm this now = Throw ShoppingCartErrors.CART_IS_EMPTY.
Proof.
  intros Hstatus Hlines. unfold confirm, assertIsNotEmpty.
  rewrite (assertIsPending_pending _ Hstatus). simpl. by rewrite Hlines.
Qed.

Lemma cancel_pending this now :
  _status this = Some Pending →
  cancel this now = Ok (ShoppingCartCanceled (_id this) now).
Proof.
  intros Hstatus. unfold cancel. by rewrite (assertIsPending_pending _ Hstatus).
Qed.

Lemma closed_rejectsCommands this :
  _status this ≠ Some Pending → rejectsCommands this.
Proof.
  intros Hclosed productItem now.
  by rewrite addProductItem_closed, removeProductItem_closed,
    confirm_closed, cancel_closed.
Qed.

End DecideThenEvolve.

(** X10: on a Pending cart with distinct keys whose quantities and prices
    are safe integers, when [removeProductItem] accepts the removal of a
    strictly positive quantity of an item whose numbers are safe integers,
    folding the event it returns leaves exactly the former quantity minus the
    removed one under the item's key, which is not negative, and the cart
    stays Pending.  (With safe integers the comparison and the difference are
    exact; beyond them the difference of two numbers is rounded.) *)
Theorem remove_then_fold (this : ShoppingCart) (productItem : PricedProductItem)
    (event : ShoppingCartEvent) :
  distinctKeys this →
  safeCart this →
  safeItem productItem →
  0 < quantity productItem →
  removeProductItem this productItem = Ok event →
  ∃ this',
    evolve this event = Ok this'
    ∧ currentQuantity this' productItem
      = currentQuantity this productItem - quantity productItem
    ∧ 0 ≤ currentQuantity this' productItem
    ∧ _status this' = Some Pending.
Proof.
  intros Hdistinct _ _ Hpositive (Hstatus & Hle & ->)%removeProductItem_Ok_inv.
  destruct (evolve_total this
              (ProductItemRemovedFromShoppingCart (_id this) productItem) eq_refl)
    as [this' Hevolve].
  exists this'. split; [done |].
  assert (_status this' = Some Pending) as Hstatus'.
  { rewrite <- Hstatus. eapply evolve_item_event_status. by right. }
  apply evolve_removed_quantities in Hevolve as (_ & Hown & _).
  assert (Exists (sameLine (productId productItem) (unitPrice productItem))
            (_productItems this)) as Hsome.
  { unfold currentQuantity in Hle.
    destruct (list_find _ _) as [[i line]|] eqn:Hfind; [|lia].
    apply list_find_Some in Hfind as (Hi & Hline & _).
    apply Exists_exists. exists line. split; [|done].
    by eapply list_elem_of_lookup_2. }
  rewrite !currentQuantity_quantityOf in *.
  rewrite (Hown Hdistinct Hsome). split_and!; [lia | lia | done].
Qed.

(** The theorem at work: one unit of P1 removed from a cart that holds two. *)
Lemma remove_then_fold_witness :
  ∃ this',
    evolve twoLinesCart
      (ProductItemRemovedFromShoppingCart (Some "cart-1") (p1 1)) = Ok this'
    ∧ currentQuantity this' (p1 1) = currentQuantity twoLinesCart (p1 1) - 1
    ∧ 0 ≤ currentQuantity this' (p1 1)
    ∧ _status this' = Some Pending.
Proof.
  apply (remove_then_fold twoLinesCart (p1 1));
    [ apply (bool_decide_unpack _); reflexivity | | | reflexivity | reflexivity ];
    unfold safeCart, safeItem, safeInteger;
    repeat first [apply Forall_nil | apply Forall_cons | split];
    by vm_compute.
Defined.

(** X11: closing is final for the guarded commands.  On a Pending cart with
    at least one line, [confirm] returns an event, and the cart with that
    event folded in is Confirmed at the date given, with the same lines, and
    refuses [addProductItem], [removeProductItem], [confirm] and [cancel]
    with CART_IS_ALREADY_CLOSED.  On any Pending cart the same holds of
    [cancel], with Canceled for Confirmed. *)
Theorem closing_is_final (this : ShoppingCart) (now : Date) :
  _status this = Some Pending →
  (_productItems this ≠ [] →
   ∃ this', (confirm this now ≫= evolve this) = Ok this'
            ∧ _status this' = Some Confirmed
            ∧ _confirmedAt this' = Some now
            ∧ _productItems this' = _productItems this
            ∧ rejectsCommands this')
  ∧ (∃ this', (cancel this now ≫= evolve this) = Ok this'
              ∧ _status this' = Some Canceled
              ∧ _canceledAt this' = Some now
              ∧ _productItems this' = _productItems this
              ∧ rejectsCommands this').
Proof.
  intros Hstatus. split.
  - intros Hlines. rewrite (confirm_pending _ _ Hstatus Hlines). simpl.
    eexists. split; [done |]. simpl.
    split_and!; try done; by apply closed_rejectsCommands.
  - rewrite (cancel_pending _ _ Hstatus). simpl.
    eexists. split; [done |]. simpl.
    split_and!; try done; by apply closed_rejectsCommands.
Qed.

(** The theorem at work: cancelling the cart with two lines. *)
Lemma closing_is_final_witness :
  ∃ this', (cancel twoLinesCart 7000 ≫= evolve twoLinesCart) = Ok this'
           ∧ _status this' = Some Canceled
           ∧ _canceledAt this' = Some 7000
           ∧ _productItems this' = _productItems twoLinesCart
           ∧ rejectsCommands this'.
Proof. apply (proj2 (closing_is_final twoLinesCart 7000 eq_refl)). Defined.

(** X12: on a Pending cart, [confirm] throws CART_IS_EMPTY when the cart has
    no line, and the service then has only read the stream, appended nothing
    and left the store as it was; with at least one line, [confirm] returns
    a ShoppingCartConfirmed event with the cart's id and the date given. *)
Theorem confirm_needs_lines {S : Type}
    (eventStore : EventStore ShoppingCartEvent S) (s : S) (id : string)
    (events : list ShoppingCartEvent) (this : ShoppingCart) (now : Date) :
  readStream eventStore s id = Ok events →
  folded events = Ok this →
  _status this = Some Pending →
  (_productItems this = [] →
   confirm this now = Throw ShoppingCartErrors.CART_IS_EMPTY
   ∧ run eventStore (ShoppingCartService.confirm repository id now) s
     = ([ReadStreamCall id], Throw ShoppingCartErrors.CART_IS_EMPTY, s))
  ∧ (_productItems this ≠ [] →
     confirm this now = Ok (ShoppingCartConfirmed (_id this) now)).
Proof.
  intros Hread Hfold Hstatus. split.
  - intros Hlines. pose proof (confirm_empty _ now Hstatus Hlines) as Hthrow.
    split; [done |].
    unfold ShoppingCartService.confirm, repository.
    eapply run_on_throw; [done.. |]. by rewrite Hthrow.
  - by apply confirm_pending.
Qed.

(** The theorem at work: confirming cart-1 right after it was opened. *)
Lemma confirm_needs_lines_witness :
  run memory (ShoppingCartService.confirm repository "cart-1" 2000) openedOnly
  = ([ReadStreamCall "cart-1"], Throw ShoppingCartErrors.CART_IS_EMPTY, openedOnly).
Proof.
  refine (proj2 (proj1 (confirm_needs_lines memory openedOnly "cart-1"
            [opened1] pendingCart 2000 eq_refl eq_refl eq_refl) eq_refl)).
Defined.

(** X13: on a stream that has no event yet, the cart was never opened, and
    each of the four guarded commands of the service fails with
    CART_IS_ALREADY_CLOSED after reading the stream, appending nothing. *)
Theorem commands_on_unopened_cart {S : Type}
    (eventStore : EventStore ShoppingCartEvent S) (s : S) (id : string)
    (productItem : PricedProductItem) (now : Date)
    (command : Prog ShoppingCartEvent unit) :
  readStream eventStore s id = Ok [] →
  command ∈ [ ShoppingCartService.addProductItem repository id productItem;
              ShoppingCartService.removeProductItem repository id productItem;
              ShoppingCartService.confirm repository id now;
              ShoppingCartService.cancel repository id now ] →
  run eventStore command s
  = ([ReadStreamCall id], Throw ShoppingCartErrors.CART_IS_ALREADY_CLOSED, s).
Proof.
  intros Hread Hcommand.
  assert (_status (default tt) ≠ Some Pending) as Hclosed by done.
  repeat (apply elem_of_cons in Hcommand as [-> | Hcommand]);
    [ unfold ShoppingCartService.addProductItem
    | unfold ShoppingCartService.removeProductItem
    | unfold ShoppingCartService.confirm
    | unfold ShoppingCartService.cancel
    | by apply elem_of_nil in Hcommand ];
    unfold repository;
    (eapply (run_on_throw _ _ _ _ _ [] (default tt)); [done | done |]).
  - by rewrite addProductItem_closed.
  - by rewrite removeProductItem_closed.
  - by rewrite confirm_closed.
  - by rewrite cancel_closed.
Qed.

(** The theorem at work: an item added to a cart nobody opened. *)
Lemma commands_on_unopened_cart_witness :
  run memory (ShoppingCartService.addProductItem repository "cart-9" (p1 1)) ∅
  = ([ReadStreamCall "cart-9"], Throw ShoppingCartErrors.CART_IS_ALREADY_CLOSED, ∅).
Proof.
  apply (commands_on_unopened_cart memory ∅ "cart-9" (p1 1) 0); [reflexivity |].
  apply elem_of_cons. by left.
Defined.

(* ===================================================================== *)
(** ** The repository and the service, whatever the entity *)
(* ===================================================================== *)

Section Generic.
Context {StreamEvent Entity S : Type}.
Variable eventStore : EventStore StreamEvent S.
Variable getInitialState : unit → Entity.
Variable evolve : Entity → StreamEvent → result Entity.

(** Reducing two arrays in a row is reducing the first and then the second
    from where the first arrived; an exception in the first is the result. *)
Lemma reduce_app (events more : list StreamEvent) (state : Entity) :
  reduce evolve (events ++ more) state
  = reduce evolve events state ≫= reduce evolve more.
Proof.
  revert state. induction events as [|event events IH]; intros state; simpl.
  - done.
  - destruct (evolve state event) as [next|message]; simpl; [apply IH | done].
Qed.

End Generic.

(** X14: [find] folds a stream from left to right and can be resumed: on a
    stream made of some events followed by more events, it returns what
    folding the later events gives when started from the state the earlier
    ones fold to; and when the earlier ones make the fold throw, that
    exception is the result and the later events are not looked at. *)
Theorem find_resumes_fold {StreamEvent Entity S : Type}
    (eventStore : EventStore StreamEvent S)
    (getInitialState : unit → Entity)
    (evolve : Entity → StreamEvent → result Entity)
    (s : S) (id : string) (events more : list StreamEvent) :
  readStream eventStore s id = Ok (events ++ more) →
  run eventStore (find (EventStoreRepository getInitialState evolve) id) s
  = ([ReadStreamCall id],
     reduce evolve events (getInitialState tt) ≫= reduce evolve more,
     s)
  ∧ (∀ message,
       reduce evolve events (getInitialState tt) = Throw message →
       run eventStore (find (EventStoreRepository getInitialState evolve) id) s
       = ([ReadStreamCall id], Throw message, s)).
Proof.
  intros Hread. rewrite (run_find _ _ _ _ _ _ Hread), reduce_app.
  split; [done |]. by intros message ->.
Qed.

(** The theorem at work: the stream of cart-1 read as its opening followed by
    two additions. *)
Lemma find_resumes_fold_witness :
  run memory (find repository "cart-1") {[ "cart-1" := twoLinesEvents ]}
  = ([ReadStreamCall "cart-1"],
     reduce Aggregate.evolve [opened1] (default tt)
       ≫= reduce Aggregate.evolve (drop 1 twoLinesEvents),
     {[ "cart-1" := twoLinesEvents ]}).
Proof.
  refine (proj1 (find_resumes_fold memory default Aggregate.evolve
                   {[ "cart-1" := twoLinesEvents ]} "cart-1"
                   [opened1] (drop 1 twoLinesEvents) _)).
  reflexivity.
Defined.

(** X15: whatever the event store, the entity and the handler, [on] first
    reads the stream of the id, once, and then either calls nothing else and
    leaves the store as it was, or calls [appendToStream] once, for the same
    id and with at least one event; the store changes only when that append
    succeeds.  It never appends an empty batch and never writes before
    reading. *)
Theorem on_reads_then_appends_at_most_once {StreamEvent Entity S : Type}
    (eventStore : EventStore StreamEvent S)
    (getInitialState : unit → Entity)
    (evolve : Entity → StreamEvent → result Entity)
    (s : S) (id : string) (handle : Entity → result (Handled StreamEvent)) :
  (∃ outcome,
     run eventStore (on (EventStoreRepository getInitialState evolve) id handle) s
     = ([ReadStreamCall id], outcome, s))
  ∨ (∃ events outcome s',
       events ≠ []
       ∧ run eventStore (on (EventStoreRepository getInitialState evolve) id handle) s
         = ([ReadStreamCall id; AppendToStreamCall id events], outcome, s')
       ∧ ((outcome = Ok tt ∧ appendToStream eventStore s id events = Ok s')
          ∨ (∃ message, outcome = Throw message ∧ s' = s
                        ∧ appendToStream eventStore s id events = Throw message))).
Proof.
  unfold on. simpl.
  destruct (readStream eventStore s id) as [events|message]; [|left; by eexists].
  destruct (reduce evolve events (getInitialState tt)) as [aggregate|message];
    simpl; [|left; by eexists].
  destruct (handle aggregate) as [handled|message]; simpl; [|left; by eexists].
  destruct (toArray handled) as [|event batch] eqn:Hbatch; simpl;
    [left; by eexists |].
  right. exists (event :: batch).
  destruct (appendToStream eventStore s id (event :: batch)) as [s'|message] eqn:Ha.
  - exists (Ok tt), s'. split_and!; [done | done |]. by left.
  - exists (Throw message), s. split_and!; [done | done |]. right. by eexists.
Qed.

(** X16: folding a cart stream, from any state, throws nothing but
    UNKNOWN_EVENT_TYPE, and throws it exactly when some event of the stream
    is not one of the five events of the union. *)
Theorem fold_fails_only_on_other_event (events : list ShoppingCartEvent)
    (state : ShoppingCart) (message : string) :
  reduce evolve events state = Throw message ↔
  message = ShoppingCartErrors.UNKNOWN_EVENT_TYPE
  ∧ Exists (λ event, isShoppingCartEvent event = false) events.
Proof.
  revert state. induction events as [|event events IH]; intros state; simpl.
  - split; [done |]. intros [_ H]. inversion H.
  - destruct (evolve state event) as [next|message'] eqn:Hnext; simpl.
    + rewrite IH. split; intros [-> H]; (split; [done |]).
      * by apply Exists_cons_tl.
      * inversion H as [?? Hother|]; subst; [|done].
        destruct event; simpl in *; done.
    + apply evolve_Throw_inv in Hnext as [-> Hother]. split.
      * intros [= <-]. split; [done |]. by apply Exists_cons_hd.
      * by intros [-> _].
Qed.

(* ===================================================================== *)
(** ** The cashier's cart: stream names and guards *)
(* ===================================================================== *)

(** X17: two shopping carts with the same stream name have the same id, so
    carts with different ids never share a stream. *)
Theorem stream_name_injective (id1 id2 : string) :
  Cashier.toShoppingCartStreamName id1 = Cashier.toShoppingCartStreamName id2 →
  id1 = id2.
Proof.
  unfold Cashier.toShoppingCartStreamName. rewrite !append_cons, !append_empty_l.
  by intros [= ->].
Qed.

Lemma stream_name_injective_witness : "cart-1" = "cart-1".
Proof. apply (stream_name_injective "cart-1" "cart-1"). reflexivity. Defined.

(** X18: the guards of the cashier's commands follow the reducer.  Whatever
    the state before and whatever the two list helpers do, the cart returned
    for a shopping-cart-opened event passes [assertShoppingCartIsOpened] and
    fails [assertHasProductItems] with NO_PRODUCTS_ITEMS; the cart returned
    for a shopping-cart-confirmed event fails [assertShoppingCartIsOpened]
    with CART_IS_NOT_OPENED; and an event about an item, or of an unknown
    type, leaves the answer of [assertShoppingCartIsOpened] as it was. *)
Theorem cashier_guards_follow_reducer
    (addProductItem removeProductItem :
       list Cashier.PricedProductItem → Cashier.PricedProductItem →
       list Cashier.PricedProductItem)
    (currentState : Cashier.ShoppingCart) :
  (∀ shoppingCartId openedAt,
     Cashier.assertShoppingCartIsOpened
       (Cashier.getShoppingCart_when addProductItem removeProductItem currentState
          (Cashier.ShoppingCartOpened shoppingCartId openedAt)).2 = Ok tt
     ∧ Cashier.assertHasProductItems
         (Cashier.getShoppingCart_when addProductItem removeProductItem currentState
            (Cashier.ShoppingCartOpened shoppingCartId openedAt)).2
       = Throw Cashier.ShoppingCartErrors.NO_PRODUCTS_ITEMS)
  ∧ (∀ shoppingCartId user additionalInfo confirmedAt,
       Cashier.assertShoppingCartIsOpened
         (Cashier.getShoppingCart_when addProductItem removeProductItem currentState
            (Cashier.ShoppingCartConfirmed shoppingCartId user additionalInfo
               confirmedAt)).2
       = Throw Cashier.ShoppingCartErrors.CART_IS_NOT_OPENED)
  ∧ (∀ event,
       (∀ shoppingCartId openedAt,
          event ≠ Cashier.ShoppingCartOpened shoppingCartId openedAt) →
       (∀ shoppingCartId user additionalInfo confirmedAt,
          event ≠ Cashier.ShoppingCartConfirmed shoppingCartId user additionalInfo
                    confirmedAt) →
       Cashier.assertShoppingCartIsOpened
         (Cashier.getShoppingCart_when addProductItem removeProductItem currentState
            event).2
       = Cashier.assertShoppingCartIsOpened currentState).
Proof.
  split_and!; try done.
  intros event Hopened Hconfirmed. destruct event; try done.
  - by destruct (Hopened shoppingCartId openedAt).
  - by destruct (Hconfirmed shoppingCartId user additionalInfo confirmedAt).
Qed.
